(** * ONI Resource Calculator: the requirements computation

    A shallow embedding of [compute_requirements] (oni_calc.py) and of the
    catalogs it reads (resources.py), with the properties its specification
    states about it.

    Python integers are unbounded, so they are [Z]; Python's [//] and [%]
    round towards minus infinity, as [Z.div] and [Z.modulo] do.  A [dict]
    is a [gmap string _] and its [.items()] is [map_to_list]; the entry of a
    building in the catalog, which mixes a [str] with [int]s, is kept as its
    list of items.  Exceptions are the left summand of a sum type.

    The function is embedded twice: as a function of its arguments and the
    two catalogs, and in store-passing style, over the module globals and a
    heap of [dict]s passed by reference, to state what a call leaves
    unchanged. *)

From Stdlib Require Import ZArith Lia.
From stdpp Require Import gmap strings pretty list fin_maps.

Local Open Scope Z_scope.

(** ** Values and exceptions *)

(** The values stored in a building's catalog entry: the display name is a
    [str], the quantities are [int]s, all in one [dict]. *)
Inductive pyval : Type :=
  | PyStr (s : string)
  | PyInt (z : Z).

(** The exceptions the body of [compute_requirements] can raise:
    the explicit [raise ValueError(...)], a zero divisor of [//] and [%],
    and [int + str] in the aggregation. *)
Inductive exn : Type :=
  | ValueError (msg : string)
  | ZeroDivisionError
  | TypeError.

Definition result (A : Type) : Type := exn + A.

#[global] Instance result_ret : MRet result := λ A a, inr a.
#[global] Instance result_bind : MBind result := λ A B k m,
  match m with
  | inl e => inl e
  | inr a => k a
  end.

Definition raise {A} (e : exn) : result A := inl e.

(** ** resources.py *)

(** An entry of [FOODS]; every entry has the same four fields. *)
Record food_info : Type := FoodInfo {
  fi_name : string;
  fi_calories : Z;
  fi_unit : string;
  fi_desc : string
}.

(** An entry of [RESOURCES]: a name, an optional unit and a description. *)
Record resource_info : Type := ResourceInfo {
  ri_name : string;
  ri_unit : option string;
  ri_desc : string
}.

Module resources.

Definition FOODS : gmap string food_info :=
  <["mushroom" := FoodInfo "Mushroom" 120 "kg" "Raw food"]>
  (<["grilled_mushroom" := FoodInfo "Grilled Mushroom" 400 "plate" "Cooked meal"]>
  (<["basic_meal" := FoodInfo "Basic Meal" 1200 "plate" "Full meal"]> ∅)).

(** Each entry is kept as its list of items, in the order written. *)
Definition BUILDINGS : gmap string (list (string * pyval)) :=
  <["simple_bed" := [("name", PyStr "Simple Cot"); ("iron_ore", PyInt 20)]]>
  (<["oxygen_generator" :=
      [("name", PyStr "O2 Generator"); ("iron_ore", PyInt 50); ("algae", PyInt 10)]]>
  (<["water_pump" := [("name", PyStr "Water Pump"); ("iron_ore", PyInt 40)]]> ∅)).

(** The keys of [RESOURCES]: the material identifiers. *)
Definition RESOURCES_keys : gset string :=
  {[ "water"; "oxygen"; "algae"; "coal"; "iron_ore" ]}.

(** The ["buildings"] of [sample_project()]. *)
Definition sample_buildings : gmap string Z :=
  <["simple_bed" := 3]> {["oxygen_generator" := 1]}.

Definition RESOURCES : gmap string resource_info :=
  <["water" := ResourceInfo "Water" (Some "kg") "Liquid water"]>
  (<["oxygen" := ResourceInfo "Oxygen" (Some "kg") "Breathable O2"]>
  (<["algae" := ResourceInfo "Algae" (Some "kg") "Algae for oxygen production"]>
  (<["coal" := ResourceInfo "Coal" (Some "kg") "Fuel for generators"]>
  (<["iron_ore" := ResourceInfo "Iron Ore" (Some "kg") "Basic building material"]> ∅)))).

(** [FOODS.items()] and [BUILDINGS.items()], in the order the source
    writes the entries. *)
Definition FOODS_items : list (string * food_info) :=
  [("mushroom", FoodInfo "Mushroom" 120 "kg" "Raw food");
   ("grilled_mushroom", FoodInfo "Grilled Mushroom" 400 "plate" "Cooked meal");
   ("basic_meal", FoodInfo "Basic Meal" 1200 "plate" "Full meal")].

Definition BUILDINGS_items : list (string * list (string * pyval)) :=
  [("simple_bed", [("name", PyStr "Simple Cot"); ("iron_ore", PyInt 20)]);
   ("oxygen_generator",
    [("name", PyStr "O2 Generator"); ("iron_ore", PyInt 50); ("algae", PyInt 10)]);
   ("water_pump", [("name", PyStr "Water Pump"); ("iron_ore", PyInt 40)])].

End resources.

(** ** oni_calc.py *)

(** The ["food"] entry of the returned dict. *)
Record food_detail : Type := FoodDetail {
  fd_key : string;
  fd_units : Z;
  fd_unit : string
}.

(** The dict [compute_requirements] returns. *)
Record requirements : Type := Requirements {
  req_duplicants : Z;
  req_days : Z;
  req_food : food_detail;
  req_materials : gmap string Z
}.

Section calculator.

(** The two module-level catalogs the function reads. *)
Variable FOODS : gmap string food_info.
Variable BUILDINGS : gmap string (list (string * pyval)).

(** [units_needed = total // cpu; if total % cpu: units_needed += 1] *)
Definition units_for (total_calories_needed calories_per_unit : Z) : Z :=
  let units_needed := total_calories_needed / calories_per_unit in
  if decide (total_calories_needed `mod` calories_per_unit = 0)
  then units_needed
  else units_needed + 1.

(** The inner loop, [for res_key, qty in info.items()], for one building
    requested [count] times.  A [str] quantity under a key other than
    ["name"] makes [materials.get(res_key, 0) + qty * count] an
    [int + str], which raises. *)
Fixpoint add_building (items : list (string * pyval)) (count : Z)
    (materials : gmap string Z) : result (gmap string Z) :=
  match items with
  | [] => mret materials
  | (res_key, qty) :: rest =>
      if decide (res_key = "name") then add_building rest count materials
      else
        match qty with
        | PyInt q =>
            add_building rest count
              (<[res_key := default 0 (materials !! res_key) + q * count]> materials)
        | PyStr _ => raise TypeError
        end
  end.

(** The outer loop, [for bkey, count in buildings.items()].
    [BUILDINGS.get(bkey)] is [None] for an unknown key, and [not info]
    also holds for an empty entry. *)
Fixpoint material_totals (items : list (string * Z))
    (materials : gmap string Z) : result (gmap string Z) :=
  match items with
  | [] => mret materials
  | (bkey, count) :: rest =>
      match BUILDINGS !! bkey with
      | None => material_totals rest materials
      | Some [] => material_totals rest materials
      | Some info =>
          materials' ← add_building info count materials;
          material_totals rest materials'
      end
  end.

(** [buildings.items()] yields the requested buildings in the order of
    their insertion, [map_to_list] in an order of its own; the totals do not
    depend on the order (see [material_totals_perm] below). *)
Definition compute_requirements (duplicants days : Z) (food_key : string)
    (buildings : gmap string Z) : result requirements :=
  match FOODS !! food_key with
  | None => raise (ValueError (String.append "Unknown food: " food_key))
  | Some food_info =>
      let calories_per_unit := fi_calories food_info in
      let calories_per_duplicant_per_day := 1200 in
      let total_calories_needed :=
        duplicants * days * calories_per_duplicant_per_day in
      if decide (calories_per_unit = 0) then raise ZeroDivisionError
      else
        let units_needed := units_for total_calories_needed calories_per_unit in
        materials ← material_totals (map_to_list buildings) ∅;
        mret {| req_duplicants := duplicants;
               req_days := days;
               req_food := FoodDetail food_key units_needed (fi_unit food_info);
               req_materials := materials |}
  end.

End calculator.

(** ** The calculator over the interpreter's store *)

Module Store.

(** The objects the function can reach: the two module globals, and the
    [dict]s with integer values, which live on the heap and are passed by
    reference.  An address is an index into the heap. *)
Record store : Type := MkStore {
  st_FOODS : gmap string food_info;
  st_BUILDINGS : gmap string (list (string * pyval));
  st_heap : list (gmap string Z)
}.

Definition set_heap (σ : store) (heap : list (gmap string Z)) : store :=
  {| st_FOODS := st_FOODS σ; st_BUILDINGS := st_BUILDINGS σ; st_heap := heap |}.

(** A statement runs in a store and leaves a store, also when it raises. *)
Definition prog (A : Type) : Type := store → result A * store.

#[global] Instance prog_ret : MRet prog := λ A a σ, (inr a, σ).
#[global] Instance prog_bind : MBind prog := λ A B k m σ,
  match m σ with
  | (inl e, σ') => (inl e, σ')
  | (inr a, σ') => k a σ'
  end.

Definition throw {A} (e : exn) : prog A := λ σ, (inl e, σ).

Definition read_FOODS : prog (gmap string food_info) :=
  λ σ, (inr (st_FOODS σ), σ).
Definition read_BUILDINGS : prog (gmap string (list (string * pyval))) :=
  λ σ, (inr (st_BUILDINGS σ), σ).

(** The contents of the [dict] at an address. *)
Definition deref (σ : store) (a : nat) : gmap string Z :=
  default ∅ (st_heap σ !! a).

(** [{}]: a new [dict], at the first address not in use. *)
Definition dict_new : prog nat :=
  λ σ, (inr (length (st_heap σ)), set_heap σ (st_heap σ ++ [∅])).
(** [d.items()], read when the loop starts: the loop below does not write
    to the [dict] it walks. *)
Definition dict_items (a : nat) : prog (list (string * Z)) :=
  λ σ, (inr (map_to_list (deref σ a)), σ).
(** [d.get(k, dflt)] *)
Definition dict_get (a : nat) (k : string) (dflt : Z) : prog Z :=
  λ σ, (inr (default dflt (deref σ a !! k)), σ).
(** [d[k] = v] *)
Definition dict_set (a : nat) (k : string) (v : Z) : prog unit :=
  λ σ, (inr (), set_heap σ (<[a := <[k := v]> (deref σ a)]> (st_heap σ))).

(** The returned dict; ["materials"] is a reference to the totals. *)
Record requirements_ref : Type := RequirementsRef {
  ref_duplicants : Z;
  ref_days : Z;
  ref_food : food_detail;
  ref_materials : nat
}.

Fixpoint add_building (items : list (string * pyval)) (count : Z)
    (materials : nat) : prog unit :=
  match items with
  | [] => mret ()
  | (res_key, qty) :: rest =>
      if decide (res_key = "name") then add_building rest count materials
      else
        match qty with
        | PyInt q =>
            old ← dict_get materials res_key 0;
            _ ← dict_set materials res_key (old + q * count);
            add_building rest count materials
        | PyStr _ => throw TypeError
        end
  end.

Fixpoint material_totals (items : list (string * Z)) (materials : nat)
    : prog unit :=
  match items with
  | [] => mret ()
  | (bkey, count) :: rest =>
      BUILDINGS ← read_BUILDINGS;
      match BUILDINGS !! bkey with
      | None => material_totals rest materials
      | Some [] => material_totals rest materials
      | Some info =>
          _ ← add_building info count materials;
          material_totals rest materials
      end
  end.

Definition compute_requirements (duplicants days : Z) (food_key : string)
    (buildings : nat) : prog requirements_ref :=
  FOODS ← read_FOODS;
  match FOODS !! food_key with
  | None => throw (ValueError (String.append "Unknown food: " food_key))
  | Some food_info =>
      let calories_per_unit := fi_calories food_info in
      let calories_per_duplicant_per_day := 1200 in
      let total_calories_needed :=
        duplicants * days * calories_per_duplicant_per_day in
      if decide (calories_per_unit = 0) then throw ZeroDivisionError
      else
        let units_needed := units_for total_calories_needed calories_per_unit in
        materials ← dict_new;
        items ← dict_items buildings;
        _ ← material_totals items materials;
        mret {| ref_duplicants := duplicants;
                ref_days := days;
                ref_food := FoodDetail food_key units_needed (fi_unit food_info);
                ref_materials := materials |}
  end.

(** What the caller sees of an outcome: the exception, or the returned
    dict with the totals it refers to. *)
Definition observe (outcome : result requirements_ref * store)
    : result requirements :=
  match outcome with
  | (inl e, _) => inl e
  | (inr r, σ) =>
      inr {| req_duplicants := ref_duplicants r;
             req_days := ref_days r;
             req_food := ref_food r;
             req_materials := deref σ (ref_materials r) |}
  end.

(** A store holding the shipped catalogs and the sample request's
    buildings, at address [0]. *)
Definition sample_store : store :=
  {| st_FOODS := resources.FOODS;
     st_BUILDINGS := resources.BUILDINGS;
     st_heap := [resources.sample_buildings] |}.

End Store.

(** The outcome of a loop, without the totals it leaves in the store. *)
Definition status {A} (r : result A) : result unit :=
  match r with
  | inl e => inl e
  | inr _ => inr ()
  end.

(** ** What one catalog entry contributes *)

(** The items of a building entry that the inner loop aggregates: those
    whose key is not ["name"] and whose value is an [int]. *)
Fixpoint quantities (info : list (string * pyval)) : list (string * Z) :=
  match info with
  | [] => []
  | (res_key, qty) :: rest =>
      if decide (res_key = "name") then quantities rest
      else match qty with
           | PyInt q => (res_key, q) :: quantities rest
           | PyStr _ => quantities rest
           end
  end.

(** An entry the inner loop can walk without raising: every value under a
    key other than ["name"] is an [int]. *)
Definition entry_ok (e : string * pyval) : bool :=
  bool_decide (e.1 = "name") ||
  match e.2 with
  | PyInt _ => true
  | PyStr _ => false
  end.

Definition info_ok (info : list (string * pyval)) : bool := forallb entry_ok info.

Definition catalog_ok (B : gmap string (list (string * pyval))) : Prop :=
  map_Forall (λ _ info, info_ok info = true) B.

(** The quantity of [mat] that one unit of an entry requires. *)
Fixpoint per_unit (qs : list (string * Z)) (mat : string) : Z :=
  match qs with
  | [] => 0
  | (res_key, q) :: rest =>
      (if decide (res_key = mat) then q else 0) + per_unit rest mat
  end.

(** ** What a request contributes *)

Section contributions.

Variable BUILDINGS : gmap string (list (string * pyval)).

(** The quantities of a catalog building; none for an unknown key. *)
Definition building_quantities (bkey : string) : list (string * Z) :=
  match BUILDINGS !! bkey with
  | Some info => quantities info
  | None => []
  end.

(** The materials that the requested buildings list. *)
Fixpoint material_keys (items : list (string * Z)) : list string :=
  match items with
  | [] => []
  | (bkey, _) :: rest => (building_quantities bkey).*1 ++ material_keys rest
  end.

(** The sum over the requested buildings of per-unit quantity times count. *)
Fixpoint total (items : list (string * Z)) (mat : string) : Z :=
  match items with
  | [] => 0
  | (bkey, count) :: rest =>
      per_unit (building_quantities bkey) mat * count + total rest mat
  end.

End contributions.

(** ** Dicts in insertion order *)

(** A [dict] as Python keeps it: its items in the order of insertion, each
    key once. *)
Fixpoint od_get {V} (d : list (string * V)) (k : string) : option V :=
  match d with
  | [] => None
  | (k', v) :: rest => if decide (k' = k) then Some v else od_get rest k
  end.

(** [d[k] = v]: a key that is present keeps its place, a new key goes to
    the end. *)
Fixpoint od_set {V} (d : list (string * V)) (k : string) (v : V)
    : list (string * V) :=
  match d with
  | [] => [(k, v)]
  | (k', v') :: rest =>
      if decide (k' = k) then (k, v) :: rest else (k', v') :: od_set rest k v
  end.

(** ** The calculator on dicts in insertion order *)

(** The dict [compute_requirements] returns, with the items of
    ["materials"] in their order. *)
Record ordered_requirements : Type := OrderedRequirements {
  oreq_duplicants : Z;
  oreq_days : Z;
  oreq_food : food_detail;
  oreq_materials : list (string * Z)
}.

(** The returned dict without the order of its materials. *)
Definition unordered (r : ordered_requirements) : requirements :=
  {| req_duplicants := oreq_duplicants r;
     req_days := oreq_days r;
     req_food := oreq_food r;
     req_materials := list_to_map (oreq_materials r) |}.

Module Ordered.

Section calculator.

Variable FOODS : gmap string food_info.
Variable BUILDINGS : gmap string (list (string * pyval)).

Fixpoint add_building (items : list (string * pyval)) (count : Z)
    (materials : list (string * Z)) : result (list (string * Z)) :=
  match items with
  | [] => mret materials
  | (res_key, qty) :: rest =>
      if decide (res_key = "name") then add_building rest count materials
      else
        match qty with
        | PyInt q =>
            add_building rest count
              (od_set materials res_key
                 (default 0 (od_get materials res_key) + q * count))
        | PyStr _ => raise TypeError
        end
  end.

Fixpoint material_totals (items : list (string * Z))
    (materials : list (string * Z)) : result (list (string * Z)) :=
  match items with
  | [] => mret materials
  | (bkey, count) :: rest =>
      match BUILDINGS !! bkey with
      | None => material_totals rest materials
      | Some [] => material_totals rest materials
      | Some info =>
          materials' ← add_building info count materials;
          material_totals rest materials'
      end
  end.

(** [buildings] is the list of the items of the argument, in their order. *)
Definition compute_requirements (duplicants days : Z) (food_key : string)
    (buildings : list (string * Z)) : result ordered_requirements :=
  match FOODS !! food_key with
  | None => raise (ValueError (String.append "Unknown food: " food_key))
  | Some food_info =>
      let calories_per_unit := fi_calories food_info in
      let calories_per_duplicant_per_day := 1200 in
      let total_calories_needed :=
        duplicants * days * calories_per_duplicant_per_day in
      if decide (calories_per_unit = 0) then raise ZeroDivisionError
      else
        let units_needed := units_for total_calories_needed calories_per_unit in
        materials ← material_totals buildings [];
        mret {| oreq_duplicants := duplicants;
                oreq_days := days;
                oreq_food := FoodDetail food_key units_needed (fi_unit food_info);
                oreq_materials := materials |}
  end.

End calculator.

End Ordered.

(** ** Presentation: [format_summary] and [save_summary_csv] *)

(** The exceptions of the presentation and input code: a missing key of a
    [dict], an index past the end of a [list], and the end of the input. *)
Inductive pyexn : Type :=
  | KeyError (key : string)
  | IndexError
  | EOFError.

(** [str(v)] *)
Definition str (v : pyval) : string :=
  match v with
  | PyStr s => s
  | PyInt z => pretty z
  end.

Section summary.

Variable FOODS : gmap string food_info.
Variable RESOURCES : gmap string resource_info.

(** The row of one material: [RESOURCES.get(mat, {}).get("name", mat)] and
    [f"{qty} {unit}"] with [RESOURCES.get(mat, {}).get("unit", "units")]. *)
Definition material_row (item : string * Z) : list pyval :=
  let name :=
    match RESOURCES !! item.1 with
    | Some info => ri_name info
    | None => item.1
    end in
  let unit :=
    match RESOURCES !! item.1 with
    | Some info => default "units" (ri_unit info)
    | None => "units"
    end in
  [PyStr name; PyStr (pretty item.2 +:+ " " +:+ unit)].

(** The rows are returned at the end, so a [KeyError] of
    [FOODS[food["key"]]] returns none. *)
Definition format_summary (requirements : ordered_requirements)
    : pyexn + list (list pyval) :=
  let food := oreq_food requirements in
  match FOODS !! fd_key food with
  | None => inl (KeyError (fd_key food))
  | Some food_info =>
      inr ([ [PyStr "Duplicants"; PyInt (oreq_duplicants requirements)];
             [PyStr "Days"; PyInt (oreq_days requirements)];
             [PyStr "Food item"; PyStr (fi_name food_info)];
             [PyStr "Food units needed";
              PyStr (pretty (fd_units food) +:+ " " +:+ fd_unit food)];
             [PyStr ""; PyStr ""];
             [PyStr "Material"; PyStr "Total"] ]
           ++ (material_row <$> oreq_materials requirements))
  end.

(** The rows handed to [writer.writerow], in order, and the exception that
    ended the writing, if any.  Opening the file is not part of the model. *)
Definition save_summary_csv (requirements : ordered_requirements)
    : list (list pyval) * option pyexn :=
  let food := oreq_food requirements in
  let written :=
    [ [PyStr "Duplicants"; PyInt (oreq_duplicants requirements)];
      [PyStr "Days"; PyInt (oreq_days requirements)];
      [PyStr ""] ] in
  match FOODS !! fd_key food with
  | None => (written, Some (KeyError (fd_key food)))
  | Some food_info =>
      (written
       ++ [ [PyStr "Food item"; PyStr (fi_name food_info)];
            [PyStr "Food units needed";
             PyStr (pretty (fd_units food) +:+ " " +:+ fd_unit food)];
            [PyStr ""];
            [PyStr "Material"; PyStr "Total"] ]
       ++ (material_row <$> oreq_materials requirements),
       None)
  end.

End summary.

(** A separator row: every cell is the empty string. *)
Definition blank_row (row : list pyval) : bool :=
  forallb (λ c, match c with
                | PyStr s => bool_decide (s = "")
                | PyInt _ => false
                end) row.

(** ** utils.py: [print_table] *)

(** [s * n] *)
Fixpoint repeat_string (n : nat) (s : string) : string :=
  match n with
  | O => ""
  | S n' => s +:+ repeat_string n' s
  end.

(** [s.ljust(width)] *)
Definition ljust (s : string) (width : nat) : string :=
  s +:+ repeat_string (width - String.length s)%nat " ".

(** [for i, c in enumerate(cells): widths[i] = max(widths[i], len(str(c)))],
    with [i] counted from [i0]. *)
Fixpoint widen (widths : list nat) (i0 : nat) (cells : list pyval)
    : pyexn + list nat :=
  match cells with
  | [] => inr widths
  | c :: rest =>
      match widths !! i0 with
      | None => inl IndexError
      | Some w =>
          widen (<[i0 := Nat.max w (String.length (str c))]> widths) (S i0) rest
      end
  end.

Fixpoint widen_rows (widths : list nat) (rows : list (list pyval))
    : pyexn + list nat :=
  match rows with
  | [] => inr widths
  | r :: rest =>
      match widen widths 0 r with
      | inl e => inl e
      | inr widths' => widen_rows widths' rest
      end
  end.

(** [str(c).ljust(widths[i]) for i, c in enumerate(cells)] *)
Fixpoint pad_cells (widths : list nat) (i0 : nat) (cells : list pyval)
    : pyexn + list string :=
  match cells with
  | [] => inr []
  | c :: rest =>
      match widths !! i0 with
      | None => inl IndexError
      | Some w =>
          match pad_cells widths (S i0) rest with
          | inl e => inl e
          | inr padded => inr (ljust (str c) w :: padded)
          end
      end
  end.

(** ["  ".join(...)] of the padded cells *)
Definition format_line (widths : list nat) (cells : list pyval) : pyexn + string :=
  match pad_cells widths 0 cells with
  | inl e => inl e
  | inr padded => inr (String.concat "  " padded)
  end.

(** The last loop: one printed line per row. *)
Fixpoint print_rows (widths : list nat) (rows : list (list pyval))
    (printed : list string) : list string * option pyexn :=
  match rows with
  | [] => (printed, None)
  | r :: rest =>
      match format_line widths r with
      | inl e => (printed, Some e)
      | inr line => print_rows widths rest (printed ++ [line])
      end
  end.

(** The lines printed, and the exception that ended the call, if any.
    [headers] is [None] by default; [if headers:] also fails for [[]]. *)
Definition print_table (rows : list (list pyval)) (headers : option (list pyval))
    : list string * option pyexn :=
  match rows with
  | [] => (["(no rows)"], None)
  | first :: _ =>
      let cols := length first in
      let widths := replicate cols 0%nat in
      let headers := default [] headers in
      match widen widths 0 headers with
      | inl e => ([], Some e)
      | inr widths =>
          match widen_rows widths rows with
          | inl e => ([], Some e)
          | inr widths =>
              match headers with
              | [] => print_rows widths rows []
              | _ :: _ =>
                  match format_line widths headers with
                  | inl e => ([], Some e)
                  | inr line =>
                      print_rows widths rows
                        [line; repeat_string (String.length line) "-"]
                  end
              end
          end
      end
  end.

(** ** The console: [safe_int] and [interactive_create_project] *)

(** What goes to the standard output: a printed line, or the prompt of an
    [input] call. *)
Inductive event : Type :=
  | Print (line : string)
  | Prompt (text : string).

(** The lines still to be read from the standard input, and what was
    written so far. *)
Record console : Type := Console {
  stdin : list string;
  stdout : list event
}.

Definition cprog (A : Type) : Type := console → (pyexn + A) * console.

#[global] Instance cprog_ret : MRet cprog := λ A a c, (inr a, c).
#[global] Instance cprog_bind : MBind cprog := λ A B k m c,
  match m c with
  | (inl e, c') => (inl e, c')
  | (inr a, c') => k a c'
  end.

Definition cthrow {A} (e : pyexn) : cprog A := λ c, (inl e, c).

(** [print(line)] *)
Definition print (line : string) : cprog unit :=
  λ c, (inr (), Console (stdin c) (stdout c ++ [Print line])).

(** [input(prompt)]: writes the prompt, then reads a line; at the end of
    the input it raises [EOFError]. *)
Definition input (prompt : string) : cprog string :=
  λ c,
    match stdin c with
    | [] => (inl EOFError, Console [] (stdout c ++ [Prompt prompt]))
    | text :: rest => (inr text, Console rest (stdout c ++ [Prompt prompt]))
    end.

(** The project dict of [interactive_create_project]; ["buildings"] by its
    items in insertion order. *)
Record project : Type := Project {
  p_duplicants : Z;
  p_days : Z;
  p_food_choice : string;
  p_buildings : list (string * Z)
}.

Section interactive.

(** Two builtins: [int(text)], [None] when it raises [ValueError], and
    [text.strip()]. *)
Variable int : string → option Z.
Variable strip : string → string.

(** utils.py.  The [while True] loop reads one line per round, so it is a
    recursion on the lines left; [EOFError] is not a [ValueError] and leaves
    the loop. *)
Fixpoint safe_int_loop (prompt : string) (dflt : option Z)
    (lines : list string) (out : list event) : (pyexn + Z) * console :=
  match lines with
  | [] => (inl EOFError, Console [] (out ++ [Prompt prompt]))
  | text :: rest =>
      let out := out ++ [Prompt prompt] in
      match (if decide (strip text = "") then dflt else None) with
      | Some d => (inr d, Console rest out)
      | None =>
          match int text with
          | Some n => (inr n, Console rest out)
          | None =>
              safe_int_loop prompt dflt rest
                (out ++ [Print "Please type a whole number (e.g. 3). Try again."])
          end
      end
  end.

Definition safe_int (prompt : string) (dflt : option Z) : cprog Z :=
  λ c, safe_int_loop prompt dflt (stdin c) (stdout c).

(** The two catalogs, by their items in order. *)
Variable FOODS : list (string * food_info).
Variable BUILDINGS : list (string * list (string * pyval)).

(** [for k, v in FOODS.items(): print(f" - {k}: ...")] *)
Fixpoint print_foods (items : list (string * food_info)) : cprog unit :=
  match items with
  | [] => mret ()
  | (k, v) :: rest =>
      _ ← print (" - " +:+ k +:+ ": " +:+ fi_name v +:+ " (" +:+
                 pretty (fi_calories v) +:+ " cal per " +:+ fi_unit v +:+ ")");
      print_foods rest
  end.

(** [for bkey, info in BUILDINGS.items(): ...]; a count that is not a number
    counts as zero, and a zero count is not stored. *)
Fixpoint ask_buildings (items : list (string * list (string * pyval)))
    (buildings : list (string * Z)) : cprog (list (string * Z)) :=
  match items with
  | [] => mret buildings
  | (bkey, info) :: rest =>
      match od_get info "name" with
      | None => cthrow (KeyError "name")
      | Some name =>
          cnt ← input ("How many " +:+ str name +:+ "? ");
          let cnt := strip cnt in
          let cnt := if decide (cnt = "") then 0 else default 0 (int cnt) in
          let buildings :=
            if decide (cnt = 0) then buildings else od_set buildings bkey cnt in
          ask_buildings rest buildings
      end
  end.

Definition interactive_create_project : cprog project :=
  _ ← print "Create a small ONI resource project";
  dup ← safe_int "How many duplicants? " None;
  days ← safe_int "How many days to plan for? " None;
  _ ← print "Available food choices:";
  _ ← print_foods FOODS;
  food_choice ← input "Choose food key from above (e.g. basic_meal): ";
  let food_choice := strip food_choice in
  food_choice ←
    (if decide (od_get FOODS food_choice = None)
     then
       _ ← print "Unknown food choice; defaulting to 'basic_meal'.";
       mret "basic_meal"
     else mret food_choice);
  _ ← print (String (Ascii.ascii_of_nat 10)
               "Now enter building counts. Press Enter to keep zero.");
  buildings ← ask_buildings BUILDINGS [];
  mret {| p_duplicants := dup;
          p_days := days;
          p_food_choice := food_choice;
          p_buildings := buildings |}.

End interactive.

(** ** Notions used to state the properties of the table and the console *)

(** The widths cover the cells of a row from column [i0] on: no cell is
    wider than its column. *)
Definition covers (widths : list nat) (i0 : nat) (cells : list pyval) : Prop :=
  ∀ j c, cells !! j = Some c →
         ∃ w, widths !! (i0 + j)%nat = Some w ∧ (String.length (str c) ≤ w)%nat.

(** The widths only grow. *)
Definition grows (widths widths' : list nat) : Prop :=
  length widths' = length widths ∧
  ∀ j w, widths !! j = Some w → ∃ w', widths' !! j = Some w' ∧ (w ≤ w')%nat.

(** A line that [safe_int] asks again for: [int] raises on it, and it is
    not a blank line answered by the default. *)
Definition rejects (int : string → option Z) (strip : string → string)
    (dflt : option Z) (text : string) : Prop :=
  int text = None ∧ (strip text = "" → dflt = None).

(** A line that [safe_int] returns [value] for: a blank line when there is
    a default, and otherwise a line that [int] reads. *)
Definition accepts (int : string → option Z) (strip : string → string)
    (dflt : option Z) (text : string) (value : Z) : Prop :=
  (strip text = "" ∧ dflt = Some value) ∨
  ((strip text = "" → dflt = None) ∧ int text = Some value).

(** A console program that reads at least [n] lines when it returns, and
    that raises nothing but [EOFError], at the end of the input. *)
Definition reads_at_least {A} (m : cprog A) (n : nat) : Prop :=
  ∀ c,
    match m c with
    | (inr _, c') => (n + length (stdin c') ≤ length (stdin c))%nat
    | (inl e, c') => e = EOFError ∧ stdin c' = []
    end.

(** * Lemmas *)

(** ** The loops *)

Lemma per_unit_absent qs mat : mat ∉ qs.*1 → per_unit qs mat = 0.
Proof.
  induction qs as [|[k q] qs IH]; simpl; [done|].
  rewrite not_elem_of_cons. intros [Hne Hnotin].
  rewrite decide_False by done. rewrite IH by done. lia.
Qed.

Lemma per_unit_nonneg qs mat :
  Forall (λ e, 0 < e.2) qs → 0 ≤ per_unit qs mat.
Proof.
  induction 1 as [|[k q] qs Hq _ IH]; simpl in *; [done|].
  case_decide; lia.
Qed.

Lemma per_unit_pos qs mat :
  Forall (λ e, 0 < e.2) qs → mat ∈ qs.*1 → 0 < per_unit qs mat.
Proof.
  induction 1 as [|[k q] qs Hq Hqs IH]; simpl in *.
  - by rewrite elem_of_nil.
  - pose proof (per_unit_nonneg qs mat Hqs).
    rewrite elem_of_cons. intros [->|Hin].
    + rewrite decide_True by done. lia.
    + specialize (IH Hin). case_decide; lia.
Qed.

Lemma add_building_name info count materials materials' :
  add_building info count materials = inr materials' →
  materials !! "name" = None →
  materials' !! "name" = None.
Proof.
  revert materials.
  induction info as [|[res_key qty] rest IH]; intros materials; simpl.
  - intros [= <-]. done.
  - case_decide as Hname; [by apply IH|].
    destruct qty as [s|q]; [done|].
    intros Hrun Hnone. eapply IH; [exact Hrun|].
    by rewrite lookup_insert_ne.
Qed.

(** The inner loop returns on a well-typed entry, and adds [count] times the
    per-unit quantity to every material the entry lists. *)
Lemma add_building_lookup info count materials :
  info_ok info = true →
  ∃ materials',
    add_building info count materials = inr materials' ∧
    ∀ mat,
      materials' !! mat =
        if decide (mat ∈ (quantities info).*1)
        then Some (default 0 (materials !! mat) + per_unit (quantities info) mat * count)
        else materials !! mat.
Proof.
  revert materials.
  induction info as [|[res_key qty] rest IH]; intros materials Hok; simpl in *.
  - by exists materials.
  - apply andb_true_iff in Hok as [Hentry Hrest].
    case_decide as Hname; [by apply IH|].
    destruct qty as [s|q].
    { exfalso. apply orb_true_iff in Hentry as [Hn|Hn]; [|done].
      by apply bool_decide_eq_true in Hn. }
    destruct (IH (<[res_key := default 0 (materials !! res_key) + q * count]> materials) Hrest)
      as (materials' & Hrun & Hlook).
    exists materials'. split; [done|]. intros mat.
    rewrite Hlook. simpl. clear Hlook Hrun IH.
    destruct (decide (res_key = mat)) as [->|Hne].
    + rewrite lookup_insert_eq. simpl.
      rewrite (decide_True (P := mat ∈ mat :: _)) by (apply elem_of_cons; auto).
      case_decide as Hin.
      * f_equal; lia.
      * rewrite per_unit_absent by done. f_equal; lia.
    + rewrite lookup_insert_ne by done.
      case_decide as Hin.
      * rewrite decide_True by (apply elem_of_cons; auto). f_equal; lia.
      * rewrite decide_False; [done|].
        rewrite not_elem_of_cons. done.
Qed.

Section totals.

Variable BUILDINGS : gmap string (list (string * pyval)).

Lemma total_absent items mat :
  mat ∉ material_keys BUILDINGS items → total BUILDINGS items mat = 0.
Proof.
  induction items as [|[bkey count] rest IH]; simpl; [done|].
  rewrite elem_of_app. intros Hnotin.
  rewrite per_unit_absent, IH by tauto. lia.
Qed.

Lemma material_totals_cons bkey count rest materials :
  material_totals BUILDINGS ((bkey, count) :: rest) materials =
    match BUILDINGS !! bkey with
    | None => material_totals BUILDINGS rest materials
    | Some info =>
        materials' ← add_building info count materials;
        material_totals BUILDINGS rest materials'
    end.
Proof. simpl. destruct (BUILDINGS !! bkey) as [[|e info]|]; done. Qed.

Lemma material_totals_unknown bkey count rest materials :
  BUILDINGS !! bkey = None →
  material_totals BUILDINGS ((bkey, count) :: rest) materials =
    material_totals BUILDINGS rest materials.
Proof. intros Hnone. by rewrite material_totals_cons, Hnone. Qed.

Lemma material_totals_name items materials materials' :
  material_totals BUILDINGS items materials = inr materials' →
  materials !! "name" = None →
  materials' !! "name" = None.
Proof.
  revert materials.
  induction items as [|[bkey count] rest IH]; intros materials.
  - intros [= <-]. done.
  - rewrite material_totals_cons.
    destruct (BUILDINGS !! bkey) as [info|]; [|by apply IH].
    destruct (add_building info count materials) as [e|m1] eqn:Hadd; [done|].
    simpl. intros Hrun Hnone. eapply IH; [exact Hrun|].
    by eapply add_building_name.
Qed.

Lemma material_keys_perm items1 items2 :
  items1 ≡ₚ items2 → material_keys BUILDINGS items1 ≡ₚ material_keys BUILDINGS items2.
Proof.
  induction 1 as [|[bkey c] l1 l2 _ IH|[b1 c1] [b2 c2] l|l1 l2 l3 _ IH1 _ IH2];
    simpl.
  - done.
  - by rewrite IH.
  - rewrite !(assoc (++)). f_equiv. apply Permutation_app_comm.
  - by etrans.
Qed.

Lemma total_perm items1 items2 mat :
  items1 ≡ₚ items2 → total BUILDINGS items1 mat = total BUILDINGS items2 mat.
Proof.
  induction 1 as [|[bkey c] l1 l2 _ IH|[b1 c1] [b2 c2] l|l1 l2 l3 _ IH1 _ IH2];
    simpl; lia.
Qed.

Hypothesis BUILDINGS_ok : catalog_ok BUILDINGS.

(** On a well-typed catalog the outer loop returns, and the total of a
    material is what it held before plus the request's contribution;
    materials that no requested building lists are left as they were. *)
Lemma material_totals_lookup items materials :
  ∃ materials',
    material_totals BUILDINGS items materials = inr materials' ∧
    ∀ mat,
      materials' !! mat =
        if decide (mat ∈ material_keys BUILDINGS items)
        then Some (default 0 (materials !! mat) + total BUILDINGS items mat)
        else materials !! mat.
Proof.
  revert materials.
  induction items as [|[bkey count] rest IH]; intros materials.
  - by exists materials.
  - rewrite material_totals_cons. simpl. unfold building_quantities.
    destruct (BUILDINGS !! bkey) as [info|] eqn:Hinfo; [|by apply IH].
    destruct (add_building_lookup info count materials)
      as (m1 & -> & Hm1); [by apply (BUILDINGS_ok bkey)|].
    destruct (IH m1) as (materials' & Hrun & Hlook).
    exists materials'. split; [done|]. intros mat.
    rewrite Hlook, Hm1. clear Hlook Hm1 Hrun IH.
    destruct (decide (mat ∈ (quantities info).*1)) as [Hin1|Hin1];
      destruct (decide (mat ∈ material_keys BUILDINGS rest)) as [Hin2|Hin2]; simpl.
    + rewrite decide_True by (apply elem_of_app; auto). f_equal; lia.
    + rewrite decide_True by (apply elem_of_app; auto).
      rewrite (total_absent _ _ Hin2). f_equal; lia.
    + rewrite decide_True by (apply elem_of_app; auto).
      rewrite (per_unit_absent _ _ Hin1). f_equal; lia.
    + rewrite decide_False; [done|]. rewrite elem_of_app. tauto.
Qed.

(** The order in which [.items()] yields the requested buildings does not
    change the outcome. *)
Lemma material_totals_perm items1 items2 materials :
  items1 ≡ₚ items2 →
  material_totals BUILDINGS items1 materials =
  material_totals BUILDINGS items2 materials.
Proof.
  intros Hperm.
  destruct (material_totals_lookup items1 materials) as (m1 & -> & Hm1).
  destruct (material_totals_lookup items2 materials) as (m2 & -> & Hm2).
  f_equal. apply map_eq. intros mat. rewrite Hm1, Hm2.
  rewrite (total_perm _ _ mat Hperm).
  apply decide_ext. by rewrite (material_keys_perm _ _ Hperm).
Qed.

End totals.

(** ** The rounded-up unit count *)

Lemma units_for_spec total_calories_needed calories_per_unit :
  0 < calories_per_unit →
  let units_needed := units_for total_calories_needed calories_per_unit in
  total_calories_needed ≤ units_needed * calories_per_unit ∧
  (units_needed - 1) * calories_per_unit < total_calories_needed.
Proof.
  intros Hpos. unfold units_for.
  pose proof (Z.div_mod total_calories_needed calories_per_unit) as Hdm.
  pose proof (Z.mod_pos_bound total_calories_needed calories_per_unit Hpos) as Hb.
  case_decide; nia.
Qed.

Lemma units_for_zero calories_per_unit : units_for 0 calories_per_unit = 0.
Proof.
  unfold units_for. rewrite Zmod_0_l, Zdiv_0_l.
  by rewrite decide_True.
Qed.

(** ** The calculator as a whole *)

Section calculator_facts.

Variable FOODS : gmap string food_info.
Variable BUILDINGS : gmap string (list (string * pyval)).

(** The function either raises or returns the request's duplicants and
    days, the food detail for the chosen food and the totals of the
    outer loop. *)
Lemma compute_requirements_inv duplicants days food_key buildings r :
  compute_requirements FOODS BUILDINGS duplicants days food_key buildings = inr r →
  ∃ food_info,
    FOODS !! food_key = Some food_info ∧
    fi_calories food_info ≠ 0 ∧
    material_totals BUILDINGS (map_to_list buildings) ∅ = inr (req_materials r) ∧
    req_duplicants r = duplicants ∧
    req_days r = days ∧
    req_food r =
      FoodDetail food_key
        (units_for (duplicants * days * 1200) (fi_calories food_info))
        (fi_unit food_info).
Proof.
  unfold compute_requirements.
  destruct (FOODS !! food_key) as [food_info|]; [|done].
  case_decide as Hcal; [done|].
  destruct (material_totals _ _ _) as [e|materials]; [done|].
  intros [= <-]. by exists food_info.
Qed.

Hypothesis BUILDINGS_ok : catalog_ok BUILDINGS.

Lemma compute_requirements_returns duplicants days food_key buildings food_info :
  FOODS !! food_key = Some food_info →
  fi_calories food_info ≠ 0 →
  ∃ materials,
    compute_requirements FOODS BUILDINGS duplicants days food_key buildings =
      inr {| req_duplicants := duplicants;
             req_days := days;
             req_food :=
               FoodDetail food_key
                 (units_for (duplicants * days * 1200) (fi_calories food_info))
                 (fi_unit food_info);
             req_materials := materials |} ∧
    material_totals BUILDINGS (map_to_list buildings) ∅ = inr materials ∧
    ∀ mat,
      materials !! mat =
        if decide (mat ∈ material_keys BUILDINGS (map_to_list buildings))
        then Some (total BUILDINGS (map_to_list buildings) mat)
        else None.
Proof.
  intros Hfood Hcal. unfold compute_requirements. rewrite Hfood.
  rewrite decide_False by done.
  destruct (material_totals_lookup BUILDINGS BUILDINGS_ok (map_to_list buildings) ∅)
    as (materials & -> & Hlook).
  exists materials. split; [done|]. split; [done|].
  intros mat. rewrite Hlook, lookup_empty. done.
Qed.

(** A requested building that the catalog does not know changes nothing. *)
Lemma compute_requirements_delete_unknown duplicants days food_key buildings bkey :
  BUILDINGS !! bkey = None →
  compute_requirements FOODS BUILDINGS duplicants days food_key buildings =
  compute_requirements FOODS BUILDINGS duplicants days food_key (delete bkey buildings).
Proof.
  intros Hunknown.
  destruct (buildings !! bkey) as [count|] eqn:Hcount;
    [|by rewrite delete_id].
  unfold compute_requirements.
  rewrite <-(material_totals_perm BUILDINGS BUILDINGS_ok _ _ ∅
               (map_to_list_delete buildings bkey count Hcount)).
  by rewrite material_totals_unknown.
Qed.

End calculator_facts.

(** ** The shipped catalogs *)

Import resources.

Lemma BUILDINGS_ok : catalog_ok BUILDINGS.
Proof.
  unfold catalog_ok, BUILDINGS.
  repeat (apply map_Forall_insert_2; [reflexivity|]).
  apply map_Forall_empty.
Qed.

Lemma FOODS_calories food_key food_info :
  FOODS !! food_key = Some food_info →
  fi_calories food_info = 120 ∨ fi_calories food_info = 400 ∨
  fi_calories food_info = 1200.
Proof.
  revert food_key food_info.
  change (map_Forall (λ _ fi, fi_calories fi = 120 ∨ fi_calories fi = 400 ∨
                              fi_calories fi = 1200) FOODS).
  unfold FOODS.
  repeat (apply map_Forall_insert_2; [cbn; tauto|]).
  apply map_Forall_empty.
Qed.

(** Evaluates [quantities] on a literal entry. *)
Ltac eval_quantities :=
  match goal with
  | |- context [quantities ?info] =>
      let qs := eval vm_compute in (quantities info) in
      change (quantities info) with qs
  end.

Lemma BUILDINGS_materials bkey mat :
  mat ∈ (building_quantities BUILDINGS bkey).*1 →
  mat = "iron_ore" ∨ mat = "algae".
Proof.
  unfold building_quantities.
  destruct (BUILDINGS !! bkey) as [info|] eqn:Hinfo; [|by rewrite elem_of_nil].
  revert bkey info Hinfo.
  change (map_Forall (λ _ info, mat ∈ (quantities info).*1 →
                                mat = "iron_ore" ∨ mat = "algae") BUILDINGS).
  unfold BUILDINGS.
  repeat (apply map_Forall_insert_2;
            [eval_quantities; cbn; rewrite ?elem_of_cons, elem_of_nil; tauto|]).
  apply map_Forall_empty.
Qed.

Lemma BUILDINGS_quantities_pos bkey :
  Forall (λ e, 0 < e.2) (building_quantities BUILDINGS bkey).
Proof.
  unfold building_quantities.
  destruct (BUILDINGS !! bkey) as [info|] eqn:Hinfo; [|done].
  revert bkey info Hinfo.
  change (map_Forall (λ _ info, Forall (λ e, 0 < e.2) (quantities info)) BUILDINGS).
  unfold BUILDINGS.
  repeat (apply map_Forall_insert_2;
            [eval_quantities; repeat constructor|]).
  apply map_Forall_empty.
Qed.

(** With positive counts, every material that a requested building lists
    gets a positive total. *)
Lemma total_pos items mat :
  Forall (λ e, 0 < e.2) items →
  0 ≤ total BUILDINGS items mat ∧
  (mat ∈ material_keys BUILDINGS items → 0 < total BUILDINGS items mat).
Proof.
  induction 1 as [|[bkey count] rest Hcount _ [IHnonneg IHpos]]; simpl in *.
  - split; [done|]. by rewrite elem_of_nil.
  - pose proof (per_unit_nonneg _ mat (BUILDINGS_quantities_pos bkey)) as Hnonneg.
    split; [nia|].
    rewrite elem_of_app. intros [Hin|Hin].
    + pose proof (per_unit_pos _ mat (BUILDINGS_quantities_pos bkey) Hin). nia.
    + specialize (IHpos Hin). nia.
Qed.

Lemma FOODS_calories_pos food_key food_info :
  FOODS !! food_key = Some food_info → 0 < fi_calories food_info.
Proof. intros Hfood. pose proof (FOODS_calories _ _ Hfood). lia. Qed.

(** With the shipped catalogs a known food is all the function needs to
    return. *)
Lemma shipped_returns duplicants days food_key buildings food_info :
  FOODS !! food_key = Some food_info →
  ∃ materials,
    compute_requirements FOODS BUILDINGS duplicants days food_key buildings =
      inr {| req_duplicants := duplicants;
             req_days := days;
             req_food :=
               FoodDetail food_key
                 (units_for (duplicants * days * 1200) (fi_calories food_info))
                 (fi_unit food_info);
             req_materials := materials |} ∧
    material_totals BUILDINGS (map_to_list buildings) ∅ = inr materials ∧
    ∀ mat,
      materials !! mat =
        if decide (mat ∈ material_keys BUILDINGS (map_to_list buildings))
        then Some (total BUILDINGS (map_to_list buildings) mat)
        else None.
Proof.
  intros Hfood. apply compute_requirements_returns; [apply BUILDINGS_ok|done|].
  pose proof (FOODS_calories_pos _ _ Hfood). lia.
Qed.

Lemma material_keys_shipped items mat :
  mat ∈ material_keys BUILDINGS items → mat = "iron_ore" ∨ mat = "algae".
Proof.
  induction items as [|[bkey count] rest IH]; simpl.
  - by rewrite elem_of_nil.
  - rewrite elem_of_app. intros [Hin|Hin]; [|by apply IH].
    by eapply BUILDINGS_materials.
Qed.

(** The totals of a request for one building. *)
Lemma singleton_totals bkey count materials :
  material_totals BUILDINGS (map_to_list ({[bkey := count]} : gmap string Z)) ∅
    = inr materials →
  ∀ mat,
    materials !! mat =
      if decide (mat ∈ (building_quantities BUILDINGS bkey).*1)
      then Some (per_unit (building_quantities BUILDINGS bkey) mat * count)
      else None.
Proof.
  rewrite map_to_list_singleton. intros Hrun mat.
  destruct (material_totals_lookup BUILDINGS BUILDINGS_ok [(bkey, count)] ∅)
    as (materials' & Hrun' & Hlook).
  rewrite Hrun in Hrun'. injection Hrun' as <-.
  rewrite Hlook, lookup_empty. simpl. rewrite app_nil_r.
  case_decide; [f_equal; lia|done].
Qed.

(** ** The store version computes what the functional version does *)

Section store_facts.

Variable FOODS : gmap string food_info.
Variable BUILDINGS : gmap string (list (string * pyval)).

(** The inner loop writes to the totals only: with the totals at the last
    address of the heap, the heap below stays as it is. *)
Lemma add_building_run heap info count materials :
  ∃ materials',
    Store.add_building info count (length heap)
      (Store.MkStore FOODS BUILDINGS (heap ++ [materials])) =
      (status (add_building info count materials),
       Store.MkStore FOODS BUILDINGS (heap ++ [materials'])) ∧
    ∀ m, add_building info count materials = inr m → materials' = m.
Proof.
  revert materials.
  induction info as [|[res_key qty] rest IH]; intros materials; simpl.
  - exists materials. split; [done|]. by intros m [= <-].
  - case_decide as Hname; [apply IH|].
    destruct qty as [s|q].
    + exists materials. by split.
    + unfold mbind, Store.prog_bind, Store.dict_get, Store.dict_set,
        Store.set_heap, Store.deref. simpl.
      rewrite list_lookup_middle by done. simpl.
      rewrite insert_app_r_alt, Nat.sub_diag by done. simpl.
      apply IH.
Qed.

Lemma material_totals_run heap items materials :
  ∃ materials',
    Store.material_totals items (length heap)
      (Store.MkStore FOODS BUILDINGS (heap ++ [materials])) =
      (status (material_totals BUILDINGS items materials),
       Store.MkStore FOODS BUILDINGS (heap ++ [materials'])) ∧
    ∀ m, material_totals BUILDINGS items materials = inr m → materials' = m.
Proof.
  revert materials.
  induction items as [|[bkey count] rest IH]; intros materials.
  - exists materials. split; [done|]. by intros m [= <-].
  - rewrite material_totals_cons.
    assert (Store.material_totals ((bkey, count) :: rest) (length heap)
              (Store.MkStore FOODS BUILDINGS (heap ++ [materials])) =
            match BUILDINGS !! bkey with
            | None =>
                Store.material_totals rest (length heap)
                  (Store.MkStore FOODS BUILDINGS (heap ++ [materials]))
            | Some info =>
                (Store.add_building info count (length heap) ≫=
                   λ _, Store.material_totals rest (length heap))
                  (Store.MkStore FOODS BUILDINGS (heap ++ [materials]))
            end) as ->.
    { simpl. unfold mbind at 1, Store.prog_bind, Store.read_BUILDINGS. simpl.
      destruct (BUILDINGS !! bkey) as [[|e info]|]; done. }
    destruct (BUILDINGS !! bkey) as [info|]; [|apply IH].
    unfold mbind at 1, Store.prog_bind.
    destruct (add_building_run heap info count materials)
      as (m1 & -> & Hm1).
    destruct (add_building info count materials) as [e|m] eqn:Hadd; simpl.
    + exists m1. by split.
    + rewrite (Hm1 m eq_refl). apply IH.
Qed.

(** The function leaves the catalogs and the heap it was given as they
    were, allocates at most the totals, and its observable outcome is the
    one of the functional version on the contents of [buildings]. *)
Lemma compute_requirements_run heap duplicants days food_key buildings :
  (buildings < length heap)%nat →
  ∃ outcome fresh,
    Store.compute_requirements duplicants days food_key buildings
      (Store.MkStore FOODS BUILDINGS heap) =
      (outcome, Store.MkStore FOODS BUILDINGS (heap ++ fresh)) ∧
    Store.observe (outcome, Store.MkStore FOODS BUILDINGS (heap ++ fresh)) =
      compute_requirements FOODS BUILDINGS duplicants days food_key
        (Store.deref (Store.MkStore FOODS BUILDINGS heap) buildings).
Proof.
  intros Hvalid.
  unfold Store.compute_requirements, compute_requirements.
  unfold mbind at 1, Store.prog_bind, Store.read_FOODS. simpl.
  destruct (FOODS !! food_key) as [food_info|].
  2:{ eexists _, []. rewrite app_nil_r. by split. }
  case_decide as Hcal.
  { eexists _, []. rewrite app_nil_r. by split. }
  unfold mbind at 1, Store.prog_bind, Store.dict_new, Store.set_heap. simpl.
  unfold mbind at 1, Store.prog_bind, Store.dict_items, Store.deref. simpl.
  rewrite lookup_app_l by done.
  unfold mbind at 1, Store.prog_bind.
  destruct (material_totals_run heap
              (map_to_list (default ∅ (heap !! buildings))) ∅)
    as (materials' & -> & Hfinal).
  destruct (material_totals BUILDINGS _ ∅) as [e|m] eqn:Htotals; simpl.
  - eexists _, [materials']. by split.
  - eexists _, [materials']. split; [done|].
    unfold Store.deref. simpl. rewrite list_lookup_middle by done. simpl.
    by rewrite (Hfinal m eq_refl).
Qed.

End store_facts.

(** * The properties the specification states *)

(** C1. For non-negative [duplicants] and [days] and a [food_key] of the
    food catalog, the function returns, and [units_needed] is the smallest
    integer whose calories cover [duplicants * days * 1200]: it covers the
    total, one unit fewer does not whenever [units_needed > 0], it is [0]
    when the total is [0], and no integer that covers the total is smaller.
    This holds for every food catalog whose calories per unit are positive,
    as the data model requires, also where they do not divide the total and
    the count is rounded up, and for every building catalog whose quantities
    are numbers. *)
Theorem units_needed_is_least
    (F : gmap string food_info) (B : gmap string (list (string * pyval)))
    (duplicants days : Z) (food_key : string) (buildings : gmap string Z)
    (food_info : food_info) :
  catalog_ok B →
  F !! food_key = Some food_info →
  0 < fi_calories food_info →
  0 ≤ duplicants →
  0 ≤ days →
  ∃ r,
    compute_requirements F B duplicants days food_key buildings = inr r ∧
    let units_needed := fd_units (req_food r) in
    let calories_per_unit := fi_calories food_info in
    let total_calories := duplicants * days * 1200 in
    total_calories ≤ units_needed * calories_per_unit ∧
    (0 < units_needed → (units_needed - 1) * calories_per_unit < total_calories) ∧
    (total_calories = 0 → units_needed = 0) ∧
    (∀ units, total_calories ≤ units * calories_per_unit → units_needed ≤ units).
Proof.
  intros Hok Hfood Hpos Hd Hn.
  destruct (compute_requirements_returns F B Hok duplicants days food_key
              buildings food_info Hfood) as (materials & Hrun & _); [lia|].
  eexists. split; [exact Hrun|]. simpl.
  destruct (units_for_spec (duplicants * days * 1200) _ Hpos) as [Hge Hlt].
  repeat split.
  - done.
  - done.
  - intros ->. apply units_for_zero.
  - intros units Hunits. nia.
Qed.

(** One duplicant for one day on a food of 700 calories: 1200 calories are
    needed, which 700 does not divide. *)
Lemma units_needed_is_least_witness :
  ∃ r,
    compute_requirements {["paste" := FoodInfo "Paste" 700 "kg" "Dense food"]}
      BUILDINGS 1 1 "paste" {["simple_bed" := 2]} = inr r ∧
    let units_needed := fd_units (req_food r) in
    let calories_per_unit :=
      fi_calories (FoodInfo "Paste" 700 "kg" "Dense food") in
    let total_calories := 1 * 1 * 1200 in
    total_calories ≤ units_needed * calories_per_unit ∧
    (0 < units_needed → (units_needed - 1) * calories_per_unit < total_calories) ∧
    (total_calories = 0 → units_needed = 0) ∧
    (∀ units, total_calories ≤ units * calories_per_unit → units_needed ≤ units).
Proof.
  apply (units_needed_is_least
           {["paste" := FoodInfo "Paste" 700 "kg" "Dense food"]} BUILDINGS
           1 1 "paste" {["simple_bed" := 2]}
           (FoodInfo "Paste" 700 "kg" "Dense food")).
  - apply BUILDINGS_ok.
  - reflexivity.
  - simpl. lia.
  - lia.
  - lia.
Defined.

(** C2. The function raises [ValueError] (the unknown-food error) exactly
    when [food_key] is not a key of the food catalog, whatever the other
    arguments are; it raises nothing else, and for a known food it returns a
    result. *)
Theorem raises_only_for_unknown_food (duplicants days : Z) (food_key : string)
    (buildings : gmap string Z) :
  let outcome :=
    compute_requirements FOODS BUILDINGS duplicants days food_key buildings in
  (FOODS !! food_key = None ↔
     outcome = inl (ValueError (String.append "Unknown food: " food_key))) ∧
  (∀ e, outcome = inl e →
     FOODS !! food_key = None ∧
     e = ValueError (String.append "Unknown food: " food_key)) ∧
  (is_Some (FOODS !! food_key) ↔ ∃ r, outcome = inr r).
Proof.
  simpl.
  destruct (FOODS !! food_key) as [food_info|] eqn:Hfood.
  - destruct (shipped_returns duplicants days food_key buildings _ Hfood)
      as (materials & -> & _).
    split; [done|]. split; [done|]. split; eauto.
  - unfold compute_requirements. rewrite Hfood.
    split; [done|]. split.
    + by intros e [= <-].
    + split; [by intros [? ?]|by intros [? ?]].
Qed.

(** C3. A requested building that the building catalog does not have is
    skipped: the outcome is the one of the request without it, so it raises
    nothing and adds no material and no quantity to the totals; a request
    made only of such buildings has empty totals. *)
Theorem unknown_building_is_skipped (duplicants days : Z) (food_key : string)
    (buildings : gmap string Z) (bkey : string) :
  BUILDINGS !! bkey = None →
  compute_requirements FOODS BUILDINGS duplicants days food_key buildings =
  compute_requirements FOODS BUILDINGS duplicants days food_key (delete bkey buildings) ∧
  (∀ food_info count,
     FOODS !! food_key = Some food_info →
     ∃ r,
       compute_requirements FOODS BUILDINGS duplicants days food_key {[bkey := count]}
         = inr r ∧
       req_materials r = ∅).
Proof.
  intros Hunknown. split.
  - by apply compute_requirements_delete_unknown; [apply BUILDINGS_ok|].
  - intros food_info count Hfood.
    destruct (shipped_returns duplicants days food_key {[bkey := count]} _ Hfood)
      as (materials & Hrun & Htotals & _).
    eexists. split; [exact Hrun|]. simpl.
    rewrite map_to_list_singleton, material_totals_unknown in Htotals by done.
    by injection Htotals as <-.
Qed.

Lemma unknown_building_is_skipped_witness :
  compute_requirements FOODS BUILDINGS 3 7 "basic_meal"
    (<["simple_bed" := 3]> {["rocket" := 2]}) =
  compute_requirements FOODS BUILDINGS 3 7 "basic_meal"
    (delete "rocket" (<["simple_bed" := 3]> {["rocket" := 2]})) ∧
  (∀ food_info count,
     FOODS !! "basic_meal" = Some food_info →
     ∃ r,
       compute_requirements FOODS BUILDINGS 3 7 "basic_meal" {["rocket" := count]}
         = inr r ∧
       req_materials r = ∅).
Proof.
  apply (unknown_building_is_skipped 3 7 "basic_meal"
           (<["simple_bed" := 3]> {["rocket" := 2]}) "rocket").
  reflexivity.
Defined.

(** C4. Material totals are additive in the count of a building: the
    per-material sum of the totals for [{A: m}] and for [{A: n}] is the
    totals for [{A: m + n}]. *)
Theorem material_totals_additive (duplicants days : Z) (food_key : string)
    (A : string) (m n : Z) :
  0 ≤ m →
  0 ≤ n →
  is_Some (FOODS !! food_key) →
  ∃ r_m r_n r_sum,
    compute_requirements FOODS BUILDINGS duplicants days food_key {[A := m]}
      = inr r_m ∧
    compute_requirements FOODS BUILDINGS duplicants days food_key {[A := n]}
      = inr r_n ∧
    compute_requirements FOODS BUILDINGS duplicants days food_key {[A := m + n]}
      = inr r_sum ∧
    union_with (λ x y, Some (x + y)) (req_materials r_m) (req_materials r_n)
      = req_materials r_sum.
Proof.
  intros _ _ [food_info Hfood].
  destruct (shipped_returns duplicants days food_key {[A := m]} _ Hfood)
    as (mats_m & Hrun_m & Htot_m & _).
  destruct (shipped_returns duplicants days food_key {[A := n]} _ Hfood)
    as (mats_n & Hrun_n & Htot_n & _).
  destruct (shipped_returns duplicants days food_key {[A := m + n]} _ Hfood)
    as (mats_sum & Hrun_sum & Htot_sum & _).
  eexists _, _, _. repeat (split; [eassumption|]). simpl.
  apply map_eq. intros mat. rewrite lookup_union_with.
  rewrite (singleton_totals _ _ _ Htot_m), (singleton_totals _ _ _ Htot_n),
    (singleton_totals _ _ _ Htot_sum).
  case_decide; simpl; [f_equal; lia|done].
Qed.

Lemma material_totals_additive_witness :
  ∃ r_m r_n r_sum,
    compute_requirements FOODS BUILDINGS 1 1 "mushroom" {["oxygen_generator" := 2]}
      = inr r_m ∧
    compute_requirements FOODS BUILDINGS 1 1 "mushroom" {["oxygen_generator" := 3]}
      = inr r_n ∧
    compute_requirements FOODS BUILDINGS 1 1 "mushroom" {["oxygen_generator" := 2 + 3]}
      = inr r_sum ∧
    union_with (λ x y, Some (x + y)) (req_materials r_m) (req_materials r_n)
      = req_materials r_sum.
Proof.
  apply (material_totals_additive 1 1 "mushroom" "oxygen_generator" 2 3);
    [lia|lia|].
  vm_compute. eexists. reflexivity.
Defined.

(** C5, as stated, fails: a catalog building requested with count [0]
    leaves an entry of total [0] for each of its materials, which the request
    without that building does not have. *)
Lemma zero_count_leaves_entry :
  ({["simple_bed" := 0]} : gmap string Z) !! "simple_bed" = Some 0 ∧
  compute_requirements FOODS BUILDINGS 1 1 "mushroom" {["simple_bed" := 0]} ≠
  compute_requirements FOODS BUILDINGS 1 1 "mushroom"
    (delete "simple_bed" {["simple_bed" := 0]}) ∧
  ∃ r,
    compute_requirements FOODS BUILDINGS 1 1 "mushroom" {["simple_bed" := 0]}
      = inr r ∧
    req_materials r !! "iron_ore" = Some 0.
Proof.
  split; [reflexivity|]. split.
  - vm_compute. discriminate.
  - eexists. split; [vm_compute; reflexivity|reflexivity].
Qed.

(** C5, amended. A building requested with count [0] adds no quantity to
    any total: the request and the request without that building both
    return, with the same duplicants, days and food, and every material has
    the same total in both when a material without an entry counts as [0];
    the entries of the request without the building are entries of the
    request with it.  Entries of total [0] come from zero counts only: when
    every requested count is positive, so is every entry of the totals. *)
Theorem zero_count_adds_nothing (duplicants days : Z) (food_key : string)
    (buildings : gmap string Z) :
  is_Some (FOODS !! food_key) →
  ∃ r,
    compute_requirements FOODS BUILDINGS duplicants days food_key buildings
      = inr r ∧
    (∀ bkey,
       buildings !! bkey = Some 0 →
       ∃ r',
         compute_requirements FOODS BUILDINGS duplicants days food_key
           (delete bkey buildings) = inr r' ∧
         req_duplicants r = req_duplicants r' ∧
         req_days r = req_days r' ∧
         req_food r = req_food r' ∧
         (∀ mat,
            default 0 (req_materials r !! mat) =
            default 0 (req_materials r' !! mat)) ∧
         (dom (req_materials r') ⊆ dom (req_materials r))) ∧
    ((∀ bkey count, buildings !! bkey = Some count → 0 < count) →
     ∀ mat qty, req_materials r !! mat = Some qty → 0 < qty).
Proof.
  intros [food_info Hfood].
  destruct (shipped_returns duplicants days food_key buildings _ Hfood)
    as (mats & Hrun & _ & Hlook).
  eexists. split; [exact Hrun|]. simpl. split.
  - intros bkey Hzero.
    destruct (shipped_returns duplicants days food_key (delete bkey buildings) _ Hfood)
      as (mats' & Hrun' & _ & Hlook').
    eexists. split; [exact Hrun'|]. simpl.
    do 3 (split; [done|]).
    pose proof (map_to_list_delete buildings bkey 0 Hzero) as Hperm.
    assert (∀ mat,
      total BUILDINGS (map_to_list buildings) mat =
      total BUILDINGS (map_to_list (delete bkey buildings)) mat) as Htotal.
    { intros mat. rewrite <-(total_perm BUILDINGS _ _ mat Hperm). simpl. lia. }
    assert (∀ mat,
      mat ∈ material_keys BUILDINGS (map_to_list (delete bkey buildings)) →
      mat ∈ material_keys BUILDINGS (map_to_list buildings)) as Hkeys.
    { intros mat Hin. rewrite <-(material_keys_perm BUILDINGS _ _ Hperm). simpl.
      apply elem_of_app. by right. }
    split.
    + intros mat. rewrite Hlook, Hlook', Htotal.
      destruct (decide (mat ∈ material_keys BUILDINGS
                          (map_to_list (delete bkey buildings))))
        as [Hin|Hnotin].
      * by rewrite decide_True by auto.
      * case_decide; simpl; [|done]. by apply total_absent.
    + intros mat. rewrite !elem_of_dom, Hlook, Hlook'.
      destruct (decide (mat ∈ material_keys BUILDINGS
                          (map_to_list (delete bkey buildings))))
        as [Hin|Hnotin].
      * rewrite decide_True by auto. eauto.
      * by intros [? ?].
  - intros Hpositive mat qty. rewrite Hlook.
    case_decide as Hin; [|done]. intros [= <-].
    apply total_pos; [|done].
    apply Forall_forall. intros [bkey count] Hitem.
    apply elem_of_map_to_list in Hitem. simpl. by eapply Hpositive.
Qed.

Lemma zero_count_adds_nothing_witness :
  ∃ r,
    compute_requirements FOODS BUILDINGS 1 1 "mushroom"
      (<["water_pump" := 2]> {["simple_bed" := 0]}) = inr r ∧
    (∀ bkey,
       (<["water_pump" := 2]> {["simple_bed" := 0]} : gmap string Z) !! bkey
         = Some 0 →
       ∃ r',
         compute_requirements FOODS BUILDINGS 1 1 "mushroom"
           (delete bkey (<["water_pump" := 2]> {["simple_bed" := 0]})) = inr r' ∧
         req_duplicants r = req_duplicants r' ∧
         req_days r = req_days r' ∧
         req_food r = req_food r' ∧
         (∀ mat,
            default 0 (req_materials r !! mat) =
            default 0 (req_materials r' !! mat)) ∧
         (dom (req_materials r') ⊆ dom (req_materials r))) ∧
    ((∀ bkey count,
        (<["water_pump" := 2]> {["simple_bed" := 0]} : gmap string Z) !! bkey
          = Some count → 0 < count) →
     ∀ mat qty, req_materials r !! mat = Some qty → 0 < qty).
Proof.
  apply (zero_count_adds_nothing 1 1 "mushroom"
           (<["water_pump" := 2]> {["simple_bed" := 0]})).
  vm_compute. eexists. reflexivity.
Defined.

(** C6. With no duplicants or no days (and a known food) no food unit is
    needed, and the material totals are those of any other duplicants, days
    and known food with the same building counts. *)
Theorem no_population_no_food (duplicants days : Z) (food_key : string)
    (buildings : gmap string Z) (duplicants' days' : Z) (food_key' : string) :
  is_Some (FOODS !! food_key) →
  is_Some (FOODS !! food_key') →
  duplicants = 0 ∨ days = 0 →
  ∃ r r',
    compute_requirements FOODS BUILDINGS duplicants days food_key buildings
      = inr r ∧
    compute_requirements FOODS BUILDINGS duplicants' days' food_key' buildings
      = inr r' ∧
    fd_units (req_food r) = 0 ∧
    req_materials r = req_materials r'.
Proof.
  intros [food_info Hfood] [food_info' Hfood'] Hzero.
  destruct (shipped_returns duplicants days food_key buildings _ Hfood)
    as (mats & Hrun & Htot & _).
  destruct (shipped_returns duplicants' days' food_key' buildings _ Hfood')
    as (mats' & Hrun' & Htot' & _).
  eexists _, _. split; [exact Hrun|]. split; [exact Hrun'|]. simpl. split.
  - replace (duplicants * days * 1200) with 0 by (destruct Hzero; subst; lia).
    apply units_for_zero.
  - rewrite Htot in Htot'. by injection Htot'.
Qed.

Lemma no_population_no_food_witness :
  ∃ r r',
    compute_requirements FOODS BUILDINGS 0 7 "basic_meal" {["water_pump" := 2]}
      = inr r ∧
    compute_requirements FOODS BUILDINGS 3 7 "mushroom" {["water_pump" := 2]}
      = inr r' ∧
    fd_units (req_food r) = 0 ∧
    req_materials r = req_materials r'.
Proof.
  apply (no_population_no_food 0 7 "basic_meal" {["water_pump" := 2]} 3 7 "mushroom").
  - vm_compute. eexists. reflexivity.
  - vm_compute. eexists. reflexivity.
  - left. reflexivity.
Defined.

(** C7. Three duplicants for seven days on basic meals, with three simple
    beds and one oxygen generator, need 21 plates, 110 of iron ore and 10 of
    algae. *)
Theorem sample_request_requirements :
  compute_requirements FOODS BUILDINGS 3 7 "basic_meal"
    (<["simple_bed" := 3]> {["oxygen_generator" := 1]}) =
  inr {| req_duplicants := 3;
         req_days := 7;
         req_food := FoodDetail "basic_meal" 21 "plate";
         req_materials := <["iron_ore" := 110]> {["algae" := 10]} |}.
Proof. vm_compute. reflexivity. Qed.

(** C9. Every food of the shipped catalog has 120, 400 or 1200 calories per
    unit, a positive number, so the function never raises
    [ZeroDivisionError]. *)
Theorem calories_positive_no_zero_division :
  (∀ food_key food_info,
     FOODS !! food_key = Some food_info →
     (fi_calories food_info = 120 ∨ fi_calories food_info = 400 ∨
      fi_calories food_info = 1200) ∧
     0 < fi_calories food_info) ∧
  (∀ duplicants days food_key buildings,
     compute_requirements FOODS BUILDINGS duplicants days food_key buildings
       ≠ inl ZeroDivisionError).
Proof.
  split.
  - intros food_key food_info Hfood. split.
    + by eapply FOODS_calories.
    + by eapply FOODS_calories_pos.
  - intros duplicants days food_key buildings.
    destruct (FOODS !! food_key) as [food_info|] eqn:Hfood.
    + destruct (shipped_returns duplicants days food_key buildings _ Hfood)
        as (materials & -> & _).
      done.
    + unfold compute_requirements. rewrite Hfood. done.
Qed.

(** C10. The totals never have the key ["name"]: every key of the totals is
    a material identifier, one of the keys of [RESOURCES]. *)
Theorem name_is_not_a_material (duplicants days : Z) (food_key : string)
    (buildings : gmap string Z) (r : requirements) :
  compute_requirements FOODS BUILDINGS duplicants days food_key buildings = inr r →
  ("name" ∉ dom (req_materials r)) ∧
  (dom (req_materials r) ⊆ RESOURCES_keys).
Proof.
  intros Hrun.
  apply compute_requirements_inv in Hrun
    as (food_info & Hfood & _ & Htotals & _).
  split.
  - rewrite not_elem_of_dom. eapply material_totals_name; [exact Htotals|].
    apply lookup_empty.
  - intros mat. rewrite elem_of_dom. intros [qty Hqty].
    destruct (material_totals_lookup BUILDINGS BUILDINGS_ok (map_to_list buildings) ∅)
      as (materials & Hrun & Hlook).
    rewrite Htotals in Hrun. injection Hrun as <-.
    rewrite Hlook, lookup_empty in Hqty.
    case_decide as Hin; [|done].
    apply material_keys_shipped in Hin as [-> | ->];
      unfold RESOURCES_keys; set_solver.
Qed.

Lemma name_is_not_a_material_witness :
  ∃ r,
    compute_requirements FOODS BUILDINGS 3 7 "basic_meal"
      (<["simple_bed" := 3]> {["oxygen_generator" := 1]}) = inr r ∧
    ("name" ∉ dom (req_materials r)) ∧
    (dom (req_materials r) ⊆ RESOURCES_keys).
Proof.
  eexists. split; [vm_compute; reflexivity|].
  apply (name_is_not_a_material 3 7 "basic_meal"
           (<["simple_bed" := 3]> {["oxygen_generator" := 1]})).
  vm_compute. reflexivity.
Defined.

(** C8. A call changes neither the catalogs nor any [dict] that existed
    before it, the one passed as [buildings] included, and what it raises or
    returns is determined by its arguments and the catalogs: it is the
    outcome of the functional version, the same in every store that agrees
    on them and on a repetition of the call. *)
Theorem compute_requirements_is_pure (σ : Store.store) (duplicants days : Z)
    (food_key : string) (buildings : nat) :
  (buildings < length (Store.st_heap σ))%nat →
  ∃ outcome σ',
    Store.compute_requirements duplicants days food_key buildings σ = (outcome, σ') ∧
    Store.st_FOODS σ' = Store.st_FOODS σ ∧
    Store.st_BUILDINGS σ' = Store.st_BUILDINGS σ ∧
    (∀ a, (a < length (Store.st_heap σ))%nat →
          Store.st_heap σ' !! a = Store.st_heap σ !! a) ∧
    Store.observe (outcome, σ') =
      compute_requirements (Store.st_FOODS σ) (Store.st_BUILDINGS σ)
        duplicants days food_key (Store.deref σ buildings) ∧
    Store.observe (Store.compute_requirements duplicants days food_key buildings σ')
      = Store.observe (outcome, σ') ∧
    (∀ σ2 buildings2,
       (buildings2 < length (Store.st_heap σ2))%nat →
       Store.st_FOODS σ2 = Store.st_FOODS σ →
       Store.st_BUILDINGS σ2 = Store.st_BUILDINGS σ →
       Store.deref σ2 buildings2 = Store.deref σ buildings →
       Store.observe
         (Store.compute_requirements duplicants days food_key buildings2 σ2)
         = Store.observe (outcome, σ')).
Proof.
  destruct σ as [F B heap]. simpl. intros Hvalid.
  destruct (compute_requirements_run F B heap duplicants days food_key buildings Hvalid)
    as (outcome & fresh & Hrun & Hobs).
  exists outcome, (Store.MkStore F B (heap ++ fresh)).
  split; [done|]. split; [done|]. split; [done|]. split.
  { intros a Ha. simpl. by rewrite lookup_app_l. }
  split; [done|].
  assert (∀ σ2 buildings2,
    (buildings2 < length (Store.st_heap σ2))%nat →
    Store.st_FOODS σ2 = F →
    Store.st_BUILDINGS σ2 = B →
    Store.deref σ2 buildings2 = Store.deref (Store.MkStore F B heap) buildings →
    Store.observe (Store.compute_requirements duplicants days food_key buildings2 σ2)
      = Store.observe (outcome, Store.MkStore F B (heap ++ fresh))) as Hany.
  { intros [F2 B2 heap2] buildings2.
    cbn [Store.st_FOODS Store.st_BUILDINGS Store.st_heap].
    intros Hvalid2 -> -> Hsame.
    destruct (compute_requirements_run F B heap2 duplicants days food_key
                buildings2 Hvalid2) as (outcome2 & fresh2 & -> & ->).
    by rewrite Hsame, Hobs. }
  split; [|exact Hany].
  apply Hany; simpl; [|done|done|].
  - rewrite length_app. lia.
  - unfold Store.deref. simpl. by rewrite lookup_app_l.
Qed.

Lemma compute_requirements_is_pure_witness :
  ∃ outcome σ',
    Store.compute_requirements 3 7 "basic_meal" 0%nat Store.sample_store
      = (outcome, σ') ∧
    Store.st_FOODS σ' = Store.st_FOODS Store.sample_store ∧
    Store.st_BUILDINGS σ' = Store.st_BUILDINGS Store.sample_store ∧
    (∀ a, (a < length (Store.st_heap Store.sample_store))%nat →
          Store.st_heap σ' !! a = Store.st_heap Store.sample_store !! a) ∧
    Store.observe (outcome, σ') =
      compute_requirements (Store.st_FOODS Store.sample_store)
        (Store.st_BUILDINGS Store.sample_store)
        3 7 "basic_meal" (Store.deref Store.sample_store 0%nat) ∧
    Store.observe (Store.compute_requirements 3 7 "basic_meal" 0%nat σ')
      = Store.observe (outcome, σ') ∧
    (∀ σ2 buildings2,
       (buildings2 < length (Store.st_heap σ2))%nat →
       Store.st_FOODS σ2 = Store.st_FOODS Store.sample_store →
       Store.st_BUILDINGS σ2 = Store.st_BUILDINGS Store.sample_store →
       Store.deref σ2 buildings2 = Store.deref Store.sample_store 0%nat →
       Store.observe
         (Store.compute_requirements 3 7 "basic_meal" buildings2 σ2)
         = Store.observe (outcome, σ')).
Proof.
  apply (compute_requirements_is_pure Store.sample_store 3 7 "basic_meal" 0%nat).
  simpl. lia.
Defined.

(** * Further properties of the code *)

(** ** The totals of a request *)

Lemma elem_of_material_keys B items mat :
  mat ∈ material_keys B items ↔
  ∃ bkey count, (bkey, count) ∈ items ∧ mat ∈ (building_quantities B bkey).*1.
Proof.
  induction items as [|[bkey count] rest IH]; simpl.
  - rewrite elem_of_nil. split; [done|].
    intros (? & ? & Hin & _). by apply elem_of_nil in Hin.
  - rewrite elem_of_app, IH. split.
    + intros [Hin|(bkey' & count' & Hin & Hmat)].
      * exists bkey, count. split; [apply elem_of_cons; auto|done].
      * exists bkey', count'. split; [apply elem_of_cons; auto|done].
    + intros (bkey' & count' & Hin & Hmat).
      apply elem_of_cons in Hin as [[= -> ->]|Hin]; [by left|].
      right. by exists bkey', count'.
Qed.

Lemma material_keys_app B items1 items2 :
  material_keys B (items1 ++ items2) =
  material_keys B items1 ++ material_keys B items2.
Proof.
  induction items1 as [|[bkey count] rest IH]; simpl; [done|].
  by rewrite IH, (assoc (++)).
Qed.

Lemma total_app B items1 items2 mat :
  total B (items1 ++ items2) mat = total B items1 mat + total B items2 mat.
Proof.
  induction items1 as [|[bkey count] rest IH]; simpl; [done|].
  rewrite IH. lia.
Qed.

Lemma total_nonneg items mat :
  Forall (λ e, 0 ≤ e.2) items → 0 ≤ total BUILDINGS items mat.
Proof.
  induction 1 as [|[bkey count] rest Hcount _ IH]; simpl in *; [done|].
  pose proof (per_unit_nonneg _ mat (BUILDINGS_quantities_pos bkey)). nia.
Qed.

Lemma map_to_list_disjoint_union (b1 b2 : gmap string Z) :
  b1 ##ₘ b2 → map_to_list (b1 ∪ b2) ≡ₚ map_to_list b1 ++ map_to_list b2.
Proof.
  intros Hdisj. apply NoDup_Permutation.
  - apply NoDup_map_to_list.
  - apply NoDup_app. split; [apply NoDup_map_to_list|].
    split; [|apply NoDup_map_to_list].
    intros [k v] Hin1 Hin2.
    apply elem_of_map_to_list in Hin1, Hin2.
    by eapply (map_disjoint_spec b1 b2).
  - intros [k v]. rewrite elem_of_app, !elem_of_map_to_list.
    by apply lookup_union_Some.
Qed.

(** X1. With the shipped catalogs and a known food, the totals have an
    entry for exactly the materials that a requested catalog building lists,
    and the entry of a material is the sum, over the requested buildings, of
    its per-unit quantity times the requested count. *)
Theorem totals_are_sums_of_contributions (duplicants days : Z)
    (food_key : string) (buildings : gmap string Z) :
  is_Some (FOODS !! food_key) →
  ∃ r,
    compute_requirements FOODS BUILDINGS duplicants days food_key buildings
      = inr r ∧
    (∀ mat,
       mat ∈ dom (req_materials r) ↔
       ∃ bkey count info,
         buildings !! bkey = Some count ∧
         BUILDINGS !! bkey = Some info ∧
         mat ∈ (quantities info).*1) ∧
    (∀ mat qty,
       req_materials r !! mat = Some qty →
       qty = total BUILDINGS (map_to_list buildings) mat).
Proof.
  intros [food_info Hfood].
  destruct (shipped_returns duplicants days food_key buildings _ Hfood)
    as (mats & Hrun & _ & Hlook).
  eexists. split; [exact Hrun|]. simpl. split.
  - intros mat. rewrite elem_of_dom, Hlook.
    destruct (decide (mat ∈ material_keys BUILDINGS (map_to_list buildings)))
      as [Hdec|Hdec].
    + split; [intros _|by eauto].
      apply elem_of_material_keys in Hdec as (bkey & count & Hin & Hmat).
      apply elem_of_map_to_list in Hin.
      unfold building_quantities in Hmat.
      destruct (BUILDINGS !! bkey) as [info|] eqn:Hinfo;
        [|by apply elem_of_nil in Hmat].
      by exists bkey, count, info.
    + split; [by intros [? ?]|].
      intros (bkey & count & info & Hcount & Hinfo & Hmat).
      destruct Hdec. apply elem_of_material_keys.
      exists bkey, count. split; [by apply elem_of_map_to_list|].
      unfold building_quantities. by rewrite Hinfo.
  - intros mat qty. rewrite Hlook. case_decide; [|done]. by intros [= <-].
Qed.

Lemma totals_are_sums_of_contributions_witness :
  ∃ r,
    compute_requirements FOODS BUILDINGS 3 7 "basic_meal" sample_buildings
      = inr r ∧
    (∀ mat,
       mat ∈ dom (req_materials r) ↔
       ∃ bkey count info,
         sample_buildings !! bkey = Some count ∧
         BUILDINGS !! bkey = Some info ∧
         mat ∈ (quantities info).*1) ∧
    (∀ mat qty,
       req_materials r !! mat = Some qty →
       qty = total BUILDINGS (map_to_list sample_buildings) mat).
Proof.
  apply (totals_are_sums_of_contributions 3 7 "basic_meal" sample_buildings).
  vm_compute. eexists. reflexivity.
Defined.

(** X2. With the shipped catalogs and a known food, a request whose counts
    are all non-negative has no negative total. *)
Theorem totals_nonnegative (duplicants days : Z) (food_key : string)
    (buildings : gmap string Z) :
  is_Some (FOODS !! food_key) →
  (∀ bkey count, buildings !! bkey = Some count → 0 ≤ count) →
  ∃ r,
    compute_requirements FOODS BUILDINGS duplicants days food_key buildings
      = inr r ∧
    ∀ mat qty, req_materials r !! mat = Some qty → 0 ≤ qty.
Proof.
  intros [food_info Hfood] Hcounts.
  destruct (shipped_returns duplicants days food_key buildings _ Hfood)
    as (mats & Hrun & _ & Hlook).
  eexists. split; [exact Hrun|]. simpl.
  intros mat qty. rewrite Hlook.
  case_decide; [|done]. intros [= <-].
  apply total_nonneg, Forall_forall. intros [bkey count] Hin.
  apply elem_of_map_to_list in Hin. simpl. by eapply Hcounts.
Qed.

Lemma totals_nonnegative_witness :
  ∃ r,
    compute_requirements FOODS BUILDINGS 3 7 "basic_meal" sample_buildings
      = inr r ∧
    ∀ mat qty, req_materials r !! mat = Some qty → 0 ≤ qty.
Proof.
  apply (totals_nonnegative 3 7 "basic_meal" sample_buildings).
  - vm_compute. eexists. reflexivity.
  - intros bkey count. unfold sample_buildings.
    rewrite lookup_insert. case_decide; [intros [= <-]; lia|].
    rewrite lookup_singleton. case_decide; [intros [= <-]; lia|done].
Defined.

(** X3. With the shipped catalogs and a known food, the totals of two
    requests with no building in common add up, material by material, to
    the totals of the request for the buildings of both. *)
Theorem totals_of_disjoint_requests_add (duplicants days : Z)
    (food_key : string) (buildings1 buildings2 : gmap string Z) :
  is_Some (FOODS !! food_key) →
  buildings1 ##ₘ buildings2 →
  ∃ r1 r2 r,
    compute_requirements FOODS BUILDINGS duplicants days food_key buildings1
      = inr r1 ∧
    compute_requirements FOODS BUILDINGS duplicants days food_key buildings2
      = inr r2 ∧
    compute_requirements FOODS BUILDINGS duplicants days food_key
      (buildings1 ∪ buildings2) = inr r ∧
    union_with (λ x y, Some (x + y)) (req_materials r1) (req_materials r2)
      = req_materials r.
Proof.
  intros [food_info Hfood] Hdisj.
  destruct (shipped_returns duplicants days food_key buildings1 _ Hfood)
    as (mats1 & Hrun1 & _ & Hlook1).
  destruct (shipped_returns duplicants days food_key buildings2 _ Hfood)
    as (mats2 & Hrun2 & _ & Hlook2).
  destruct (shipped_returns duplicants days food_key (buildings1 ∪ buildings2)
              _ Hfood) as (mats & Hrun & _ & Hlook).
  eexists _, _, _. repeat (split; [eassumption|]). simpl.
  pose proof (map_to_list_disjoint_union _ _ Hdisj) as Hperm.
  apply map_eq. intros mat.
  rewrite lookup_union_with, Hlook1, Hlook2, Hlook.
  rewrite (total_perm BUILDINGS _ _ mat Hperm), total_app.
  rewrite (decide_ext
             (mat ∈ material_keys BUILDINGS (map_to_list (buildings1 ∪ buildings2)))
             (mat ∈ material_keys BUILDINGS (map_to_list buildings1)
              ∨ mat ∈ material_keys BUILDINGS (map_to_list buildings2)))
    by (by rewrite (material_keys_perm BUILDINGS _ _ Hperm),
                   material_keys_app, elem_of_app).
  destruct (decide (mat ∈ material_keys BUILDINGS (map_to_list buildings1)))
    as [Hin1|Hin1];
    destruct (decide (mat ∈ material_keys BUILDINGS (map_to_list buildings2)))
      as [Hin2|Hin2]; simpl.
  - rewrite decide_True by auto. done.
  - rewrite decide_True by auto.
    rewrite (total_absent _ _ _ Hin2). f_equal; lia.
  - rewrite decide_True by auto.
    rewrite (total_absent _ _ _ Hin1). f_equal; lia.
  - rewrite decide_False by tauto. done.
Qed.

Lemma totals_of_disjoint_requests_add_witness :
  ∃ r1 r2 r,
    compute_requirements FOODS BUILDINGS 1 1 "mushroom" {["simple_bed" := 3]}
      = inr r1 ∧
    compute_requirements FOODS BUILDINGS 1 1 "mushroom" {["oxygen_generator" := 1]}
      = inr r2 ∧
    compute_requirements FOODS BUILDINGS 1 1 "mushroom"
      ({["simple_bed" := 3]} ∪ {["oxygen_generator" := 1]}) = inr r ∧
    union_with (λ x y, Some (x + y)) (req_materials r1) (req_materials r2)
      = req_materials r.
Proof.
  apply (totals_of_disjoint_requests_add 1 1 "mushroom"
           {["simple_bed" := 3]} {["oxygen_generator" := 1]}).
  - vm_compute. eexists. reflexivity.
  - apply map_disjoint_singleton_l. reflexivity.
Defined.

(** X4. Every food of the shipped catalog has a calorie count that divides
    the daily need of 1200, so the rounding never adds a unit: the units
    needed carry exactly the calories needed, for all integers [duplicants]
    and [days]. *)
Theorem shipped_foods_need_no_rounding (duplicants days : Z) (food_key : string)
    (buildings : gmap string Z) (food_info : food_info) :
  FOODS !! food_key = Some food_info →
  ∃ r,
    compute_requirements FOODS BUILDINGS duplicants days food_key buildings
      = inr r ∧
    fd_units (req_food r) * fi_calories food_info = duplicants * days * 1200.
Proof.
  intros Hfood.
  destruct (shipped_returns duplicants days food_key buildings _ Hfood)
    as (mats & Hrun & _).
  eexists. split; [exact Hrun|]. simpl. unfold units_for.
  destruct (FOODS_calories _ _ Hfood) as [-> | [-> | ->]].
  - replace (duplicants * days * 1200) with (duplicants * days * 10 * 120) by lia.
    rewrite Z_mod_mult, Z_div_mult by lia. by rewrite decide_True.
  - replace (duplicants * days * 1200) with (duplicants * days * 3 * 400) by lia.
    rewrite Z_mod_mult, Z_div_mult by lia. by rewrite decide_True.
  - rewrite Z_mod_mult, Z_div_mult by lia. by rewrite decide_True.
Qed.

Lemma shipped_foods_need_no_rounding_witness :
  ∃ r,
    compute_requirements FOODS BUILDINGS 3 7 "grilled_mushroom" ∅ = inr r ∧
    fd_units (req_food r) * 400 = 3 * 7 * 1200.
Proof.
  apply (shipped_foods_need_no_rounding 3 7 "grilled_mushroom" ∅
           (FoodInfo "Grilled Mushroom" 400 "plate" "Cooked meal")).
  reflexivity.
Defined.

(** ** Dicts in insertion order *)

Lemma od_get_list_to_map {V} (d : list (string * V)) k :
  od_get d k = (list_to_map d : gmap string V) !! k.
Proof.
  induction d as [|[k' v] rest IH]; simpl; [by rewrite lookup_empty|].
  case_decide as Hk.
  - subst. by rewrite lookup_insert_eq.
  - by rewrite lookup_insert_ne.
Qed.

Lemma od_set_list_to_map {V} (d : list (string * V)) k v :
  (list_to_map (od_set d k v) : gmap string V) = <[k := v]> (list_to_map d).
Proof.
  induction d as [|[k' v'] rest IH]; simpl; [done|].
  case_decide as Hk; simpl.
  - subst. by rewrite insert_insert_eq.
  - by rewrite IH, insert_insert_ne.
Qed.

Lemma od_set_keys {V} (d : list (string * V)) k v :
  (od_set d k v).*1 = if decide (k ∈ d.*1) then d.*1 else d.*1 ++ [k].
Proof.
  induction d as [|[k' v'] rest IH]; csimpl; [done|].
  destruct (decide (k' = k)) as [->|Hk]; csimpl.
  - rewrite decide_True; [done|]. apply elem_of_cons. by left.
  - rewrite IH. destruct (decide (k ∈ rest.*1)) as [Hin|Hin].
    + rewrite decide_True; [done|]. apply elem_of_cons. by right.
    + rewrite decide_False; [done|]. rewrite elem_of_cons.
      intros [?|?]; [congruence|done].
Qed.

Lemma od_set_NoDup {V} (d : list (string * V)) k v :
  NoDup d.*1 → NoDup (od_set d k v).*1.
Proof.
  intros Hd. rewrite od_set_keys. case_decide as Hin; [done|].
  apply NoDup_app. split; [done|]. split; [|apply NoDup_singleton].
  intros x Hx Hx'. apply list_elem_of_singleton in Hx'. by subst.
Qed.

Lemma od_set_elem_of {V} (d : list (string * V)) k v k' v' :
  (k', v') ∈ od_set d k v → (k', v') ∈ d ∨ (k' = k ∧ v' = v).
Proof.
  induction d as [|[k0 v0] rest IH]; simpl.
  - intros Hin. apply list_elem_of_singleton in Hin as [= -> ->]. by right.
  - case_decide as Hk.
    + rewrite !elem_of_cons. intros [[= -> ->]|Hin]; [by right|by left; right].
    + rewrite !elem_of_cons. intros [[= -> ->]|Hin]; [by left; left|].
      destruct (IH Hin) as [?|?]; [by left; right|by right].
Qed.

(** ** The calculator on dicts in insertion order *)

Section ordered_facts.

Variable FOODS : gmap string food_info.
Variable BUILDINGS : gmap string (list (string * pyval)).

(** Forgetting the order in which the materials were entered turns the
    loops on ordered dicts into the loops on maps. *)
Lemma ordered_add_building info count materials :
  match Ordered.add_building info count materials with
  | inl e => add_building info count (list_to_map materials) = inl e
  | inr materials' =>
      add_building info count (list_to_map materials)
        = inr (list_to_map materials')
  end.
Proof.
  revert materials.
  induction info as [|[res_key qty] rest IH]; intros materials; simpl.
  - done.
  - case_decide as Hname; [apply IH|].
    destruct qty as [s|q]; [done|].
    rewrite <-od_get_list_to_map, <-od_set_list_to_map. apply IH.
Qed.

Lemma ordered_material_totals items materials :
  match Ordered.material_totals BUILDINGS items materials with
  | inl e => material_totals BUILDINGS items (list_to_map materials) = inl e
  | inr materials' =>
      material_totals BUILDINGS items (list_to_map materials)
        = inr (list_to_map materials')
  end.
Proof.
  revert materials.
  induction items as [|[bkey count] rest IH]; intros materials.
  - done.
  - rewrite material_totals_cons.
    assert (Ordered.material_totals BUILDINGS ((bkey, count) :: rest) materials =
            match BUILDINGS !! bkey with
            | None => Ordered.material_totals BUILDINGS rest materials
            | Some info =>
                materials' ← Ordered.add_building info count materials;
                Ordered.material_totals BUILDINGS rest materials'
            end) as ->.
    { simpl. destruct (BUILDINGS !! bkey) as [[|e info]|]; done. }
    destruct (BUILDINGS !! bkey) as [info|]; [|apply IH].
    pose proof (ordered_add_building info count materials) as Hadd.
    destruct (Ordered.add_building info count materials) as [e|m1];
      rewrite Hadd; simpl; [done|apply IH].
Qed.

Lemma ordered_add_building_NoDup info count materials materials' :
  Ordered.add_building info count materials = inr materials' →
  NoDup materials.*1 → NoDup materials'.*1.
Proof.
  revert materials.
  induction info as [|[res_key qty] rest IH]; intros materials; simpl.
  - by intros [= <-].
  - case_decide as Hname; [apply IH|].
    destruct qty as [s|q]; [done|].
    intros Hrun Hnodup. eapply IH; [exact Hrun|]. by apply od_set_NoDup.
Qed.

Lemma ordered_material_totals_NoDup items materials materials' :
  Ordered.material_totals BUILDINGS items materials = inr materials' →
  NoDup materials.*1 → NoDup materials'.*1.
Proof.
  revert materials.
  induction items as [|[bkey count] rest IH]; intros materials; simpl.
  - by intros [= <-].
  - destruct (BUILDINGS !! bkey) as [[|e info]|]; try apply IH.
    destruct (Ordered.add_building (e :: info) count materials)
      as [err|m1] eqn:Hadd; [done|].
    simpl. intros Hrun Hnodup. eapply IH; [exact Hrun|].
    by eapply ordered_add_building_NoDup.
Qed.

Hypothesis BUILDINGS_ok : catalog_ok BUILDINGS.

Lemma ordered_compute_requirements duplicants days food_key buildings :
  NoDup buildings.*1 →
  match Ordered.compute_requirements FOODS BUILDINGS duplicants days food_key
          buildings with
  | inl e =>
      compute_requirements FOODS BUILDINGS duplicants days food_key
        (list_to_map buildings) = inl e
  | inr r =>
      compute_requirements FOODS BUILDINGS duplicants days food_key
        (list_to_map buildings) = inr (unordered r) ∧
      NoDup (oreq_materials r).*1
  end.
Proof.
  intros Hnodup.
  unfold Ordered.compute_requirements, compute_requirements.
  destruct (FOODS !! food_key) as [food_info|]; [|done].
  case_decide as Hcal; [done|].
  rewrite (material_totals_perm BUILDINGS BUILDINGS_ok _ _ ∅
             (map_to_list_to_map buildings Hnodup)).
  pose proof (ordered_material_totals buildings []) as Htotals.
  pose proof (ordered_material_totals_NoDup buildings []) as Hkeys.
  destruct (Ordered.material_totals BUILDINGS buildings []) as [e|materials];
    simpl in *; rewrite Htotals; [done|].
  split; [done|]. apply (Hkeys materials eq_refl). constructor.
Qed.

End ordered_facts.

(** X5. The order in which the buildings were entered into the request does
    not change what is required: run on the items of a dict in their
    insertion order, with the shipped catalogs, the function raises what the
    function on the dict as a map raises, or returns its result, with every
    material entered once. *)
Theorem insertion_order_is_irrelevant (duplicants days : Z) (food_key : string)
    (buildings : list (string * Z)) :
  NoDup buildings.*1 →
  match Ordered.compute_requirements FOODS BUILDINGS duplicants days food_key
          buildings with
  | inl e =>
      compute_requirements FOODS BUILDINGS duplicants days food_key
        (list_to_map buildings) = inl e
  | inr r =>
      compute_requirements FOODS BUILDINGS duplicants days food_key
        (list_to_map buildings) = inr (unordered r) ∧
      NoDup (oreq_materials r).*1
  end.
Proof. apply ordered_compute_requirements, BUILDINGS_ok. Qed.

Lemma insertion_order_is_irrelevant_witness :
  match Ordered.compute_requirements FOODS BUILDINGS 3 7 "basic_meal"
          [("oxygen_generator", 1); ("simple_bed", 3)] with
  | inl e =>
      compute_requirements FOODS BUILDINGS 3 7 "basic_meal"
        (list_to_map [("oxygen_generator", 1); ("simple_bed", 3)]) = inl e
  | inr r =>
      compute_requirements FOODS BUILDINGS 3 7 "basic_meal"
        (list_to_map [("oxygen_generator", 1); ("simple_bed", 3)])
        = inr (unordered r) ∧
      NoDup (oreq_materials r).*1
  end.
Proof.
  apply (insertion_order_is_irrelevant 3 7 "basic_meal"
           [("oxygen_generator", 1); ("simple_bed", 3)]).
  apply (bool_decide_unpack _). vm_compute. exact I.
Defined.

(** ** The summary *)

Lemma ordered_compute_requirements_inv F B duplicants days food_key buildings r :
  Ordered.compute_requirements F B duplicants days food_key buildings = inr r →
  ∃ food_info,
    F !! food_key = Some food_info ∧
    Ordered.material_totals B buildings [] = inr (oreq_materials r) ∧
    oreq_duplicants r = duplicants ∧
    oreq_days r = days ∧
    oreq_food r =
      FoodDetail food_key
        (units_for (duplicants * days * 1200) (fi_calories food_info))
        (fi_unit food_info).
Proof.
  unfold Ordered.compute_requirements.
  destruct (F !! food_key) as [food_info|]; [|done].
  case_decide as Hcal; [done|].
  destruct (Ordered.material_totals _ _ _) as [e|materials]; [done|].
  intros [= <-]. by exists food_info.
Qed.

Lemma elem_of_list_to_map_is_Some {V} (d : list (string * V)) k v :
  (k, v) ∈ d → is_Some ((list_to_map d : gmap string V) !! k).
Proof.
  induction d as [|[k' v'] rest IH]; simpl.
  - by rewrite elem_of_nil.
  - rewrite elem_of_cons. intros [[= <- <-]|Hin].
    + rewrite lookup_insert_eq. eauto.
    + destruct (decide (k' = k)) as [->|Hne].
      * rewrite lookup_insert_eq. eauto.
      * rewrite lookup_insert_ne by done. by apply IH.
Qed.

(** The materials of a result on the shipped catalogs. *)
Lemma ordered_materials_shipped duplicants days food_key buildings r :
  Ordered.compute_requirements FOODS BUILDINGS duplicants days food_key buildings
    = inr r →
  Forall (λ item, item.1 = "iron_ore" ∨ item.1 = "algae") (oreq_materials r).
Proof.
  intros Hrun.
  apply ordered_compute_requirements_inv in Hrun as (food_info & _ & Htotals & _).
  pose proof (ordered_material_totals BUILDINGS buildings []) as Hmap.
  rewrite Htotals in Hmap. simpl in Hmap.
  destruct (material_totals_lookup BUILDINGS BUILDINGS_ok buildings ∅)
    as (materials & Hrun & Hlook).
  rewrite Hmap in Hrun. injection Hrun as <-.
  apply Forall_forall. intros [mat qty] Hin. simpl.
  apply elem_of_list_to_map_is_Some in Hin as [qty' Hqty].
  rewrite Hlook, lookup_empty in Hqty.
  case_decide as Hkeys; [|done].
  by eapply material_keys_shipped.
Qed.

Lemma format_summary_returns
    (F : gmap string food_info) (B : gmap string (list (string * pyval)))
    (R : gmap string resource_info)
    (duplicants days : Z) (food_key : string) (buildings : list (string * Z))
    (r : ordered_requirements) :
  Ordered.compute_requirements F B duplicants days food_key buildings = inr r →
  ∃ rows,
    format_summary F R r = inr rows ∧
    length rows = (6 + length (oreq_materials r))%nat ∧
    Forall (λ row, length row = 2%nat) rows.
Proof.
  intros Hrun.
  apply ordered_compute_requirements_inv in Hrun
    as (food_info & Hfood & _ & _ & _ & Hdetail).
  unfold format_summary. rewrite Hdetail. csimpl. rewrite Hfood.
  eexists. split; [done|]. split.
  - csimpl. by rewrite length_fmap.
  - repeat (apply Forall_cons; split; [done|]).
    apply Forall_fmap, Forall_forall. by intros [mat qty] _.
Qed.





Lemma material_row_not_blank R item : blank_row (material_row R item) = false.
Proof.
  unfold material_row, blank_row. simpl.
  apply andb_false_intro2, andb_false_intro1, bool_decide_eq_false.
  destruct (pretty item.2); discriminate.
Qed.

Lemma filter_material_rows R (materials : list (string * Z)) :
  filter (λ row, blank_row row = false) (material_row R <$> materials)
    = material_row R <$> materials.
Proof.
  induction materials as [|item rest IH]; csimpl; [done|].
  rewrite filter_cons_True by apply material_row_not_blank.
  by rewrite IH.
Qed.


(** ** The table *)

Section table_facts.

Local Open Scope nat_scope.

Lemma string_length_app s1 s2 :
  String.length (s1 +:+ s2) = String.length s1 + String.length s2.
Proof. induction s1 as [|a s1 IH]; simpl; [done|]. by rewrite IH. Qed.

Lemma repeat_string_length n s :
  String.length (repeat_string n s) = n * String.length s.
Proof.
  induction n as [|n IH]; simpl; [done|].
  by rewrite string_length_app, IH.
Qed.

Lemma ljust_length s width :
  String.length (ljust s width) = String.length s `max` width.
Proof.
  unfold ljust. rewrite string_length_app, repeat_string_length. simpl. lia.
Qed.

(** The length of a joined line depends on the lengths of its parts only. *)
Lemma concat_length sep (parts : list string) :
  String.length (String.concat sep parts) =
  sum_list (String.length <$> parts)
  + String.length sep * (length parts - 1).
Proof.
  induction parts as [|x parts IH]; [simpl; lia|].
  destruct parts as [|y rest]; [simpl; lia|].
  change (String.concat sep (x :: y :: rest))
    with (x +:+ sep +:+ String.concat sep (y :: rest)).
  rewrite !string_length_app, IH. csimpl.
  rewrite !Nat.sub_0_r. lia.
Qed.

Lemma grows_refl widths : grows widths widths.
Proof. split; [done|]. intros j w Hw. exists w. by split. Qed.

Lemma grows_trans w1 w2 w3 : grows w1 w2 → grows w2 w3 → grows w1 w3.
Proof.
  intros [Hlen1 H1] [Hlen2 H2]. split; [congruence|].
  intros j w Hw. destruct (H1 j w Hw) as (w' & Hw' & Hle).
  destruct (H2 j w' Hw') as (w'' & Hw'' & Hle'). exists w''. split; [done|lia].
Qed.

Lemma covers_grows widths widths' i0 cells :
  grows widths widths' → covers widths i0 cells → covers widths' i0 cells.
Proof.
  intros [_ Hgrow] Hcov j c Hc. destruct (Hcov j c Hc) as (w & Hw & Hle).
  destruct (Hgrow _ _ Hw) as (w' & Hw' & Hle'). exists w'. split; [done|lia].
Qed.

Lemma grows_insert widths i w x :
  widths !! i = Some w → grows widths (<[i := w `max` x]> widths).
Proof.
  intros Hw. split; [by rewrite length_insert|].
  intros j w0 Hw0. destruct (decide (i = j)) as [->|Hne].
  - rewrite list_lookup_insert_eq by (by eapply lookup_lt_Some).
    exists (w `max` x). split; [done|]. rewrite Hw in Hw0. injection Hw0 as <-. lia.
  - rewrite list_lookup_insert_ne by done. exists w0. by split.
Qed.

Lemma widen_inr widths i0 cells widths' :
  widen widths i0 cells = inr widths' →
  grows widths widths' ∧ covers widths' i0 cells.
Proof.
  revert widths i0.
  induction cells as [|c rest IH]; intros widths i0; simpl.
  - intros [= <-]. split; [apply grows_refl|]. by intros j c.
  - destruct (widths !! i0) as [w|] eqn:Hw; [|done].
    intros Hrun. destruct (IH _ _ Hrun) as [Hgrow Hcov].
    pose proof (grows_insert widths i0 w (String.length (str c)) Hw) as Hstep.
    split; [by eapply grows_trans|].
    intros [|j] c' Hc'; simpl in Hc'.
    + injection Hc' as <-. rewrite Nat.add_0_r.
      destruct Hgrow as [_ Hgrow].
      destruct (Hgrow i0 (w `max` String.length (str c))) as (w' & Hw' & Hle).
      { apply list_lookup_insert_eq. by eapply lookup_lt_Some. }
      exists w'. split; [done|lia].
    + destruct (Hcov j c' Hc') as (w' & Hw' & Hle).
      exists w'. split; [|done]. by rewrite <-Nat.add_succ_comm.
Qed.

Lemma widen_is_inr widths i0 cells :
  i0 + length cells ≤ length widths → ∃ widths', widen widths i0 cells = inr widths'.
Proof.
  revert widths i0.
  induction cells as [|c rest IH]; intros widths i0 Hlen; simpl in *; [eauto|].
  destruct (lookup_lt_is_Some_2 widths i0) as [w ->]; [lia|].
  apply IH. rewrite length_insert. lia.
Qed.

Lemma widen_inl widths i0 cells :
  i0 ≤ length widths → length widths < i0 + length cells →
  widen widths i0 cells = inl IndexError.
Proof.
  revert widths i0.
  induction cells as [|c rest IH]; intros widths i0 Hi0 Hlen; simpl in *; [lia|].
  destruct (widths !! i0) as [w|] eqn:Hw; [|done].
  apply lookup_lt_Some in Hw.
  apply IH; rewrite length_insert; lia.
Qed.

Lemma widen_rows_inr widths rows widths' :
  widen_rows widths rows = inr widths' →
  grows widths widths' ∧ Forall (covers widths' 0) rows.
Proof.
  revert widths.
  induction rows as [|r rest IH]; intros widths; simpl.
  - intros [= <-]. split; [apply grows_refl|done].
  - destruct (widen widths 0 r) as [e|w1] eqn:Hrow; [done|].
    intros Hrun. destruct (IH _ Hrun) as [Hgrow Hcov].
    destruct (widen_inr _ _ _ _ Hrow) as [Hgrow1 Hcov1].
    split; [by eapply grows_trans|].
    constructor; [|done]. by eapply covers_grows.
Qed.

Lemma widen_rows_is_inr widths rows :
  Forall (λ r, length r ≤ length widths) rows →
  ∃ widths', widen_rows widths rows = inr widths'.
Proof.
  revert widths.
  induction rows as [|r rest IH]; intros widths Hrows; simpl; [eauto|].
  apply Forall_cons in Hrows as [Hr Hrest].
  destruct (widen_is_inr widths 0 r) as [w1 Hrow]; [simpl; lia|].
  rewrite Hrow. apply IH.
  destruct (widen_inr _ _ _ _ Hrow) as [[-> _] _]. done.
Qed.

Lemma widen_rows_inl widths rows :
  Exists (λ r, length widths < length r) rows →
  widen_rows widths rows = inl IndexError.
Proof.
  revert widths.
  induction rows as [|r rest IH]; intros widths Hrows; simpl.
  - by apply Exists_nil in Hrows.
  - destruct (widen widths 0 r) as [e|w1] eqn:Hrow.
    + destruct (decide (length r ≤ length widths)) as [Hle|Hgt].
      * destruct (widen_is_inr widths 0 r) as [? Hok]; [simpl; lia|congruence].
      * rewrite widen_inl in Hrow by (simpl; lia). congruence.
    + destruct (widen_inr _ _ _ _ Hrow) as [[Hlen _] _].
      apply Exists_cons in Hrows as [Hr|Hrest].
      * rewrite widen_inl in Hrow by (simpl; lia). done.
      * apply IH. by rewrite Hlen.
Qed.

Lemma pad_cells_covered widths i0 cells :
  covers widths i0 cells →
  ∃ padded,
    pad_cells widths i0 cells = inr padded ∧
    String.length <$> padded = take (length cells) (drop i0 widths).
Proof.
  revert i0.
  induction cells as [|c rest IH]; intros i0 Hcov; simpl.
  - by exists [].
  - destruct (Hcov 0 c eq_refl) as (w & Hw & Hle).
    rewrite Nat.add_0_r in Hw. rewrite Hw.
    destruct (IH (S i0)) as (padded & -> & Hlen).
    { intros j c' Hc'. destruct (Hcov (S j) c' Hc') as (w' & Hw' & Hle').
      exists w'. split; [|done]. by rewrite Nat.add_succ_comm. }
    eexists. split; [done|]. csimpl.
    rewrite (drop_S _ _ _ Hw). simpl.
    rewrite ljust_length, Hlen. f_equal. lia.
Qed.

Lemma format_line_covered widths cells :
  covers widths 0 cells →
  ∃ line,
    format_line widths cells = inr line ∧
    (length cells = length widths →
     String.length line = sum_list widths + 2 * (length widths - 1)).
Proof.
  intros Hcov. unfold format_line.
  destruct (pad_cells_covered widths 0 cells Hcov) as (padded & -> & Hlen).
  eexists. split; [done|]. intros Hfull.
  rewrite concat_length, Hlen, Hfull, drop_0, firstn_all.
  rewrite <-(length_fmap String.length padded), Hlen.
  by rewrite length_take, drop_0, Hfull, Nat.min_id.
Qed.

Lemma print_rows_covered widths rows printed :
  Forall (covers widths 0) rows →
  ∃ lines,
    print_rows widths rows printed = (printed ++ lines, None) ∧
    Forall2 (λ r line, format_line widths r = inr line) rows lines.
Proof.
  revert printed.
  induction rows as [|r rest IH]; intros printed Hcov; simpl.
  - exists []. by rewrite app_nil_r.
  - apply Forall_cons in Hcov as [Hr Hrest].
    destruct (format_line_covered widths r Hr) as (line & Hline & _).
    rewrite Hline.
    destruct (IH (printed ++ [line]) Hrest) as (lines & -> & Hlines).
    exists (line :: lines). split; [by rewrite <-(assoc (++))|].
    by constructor.
Qed.

(** What [print_table] prints when no row and no header is longer than
    the first row. *)
Lemma print_table_lines first rest headers :
  Forall (λ r, length r ≤ length first) (default [] headers :: first :: rest) →
  ∃ widths header_lines lines,
    print_table (first :: rest) headers = (header_lines ++ lines, None) ∧
    length widths = length first ∧
    Forall2 (λ r line, format_line widths r = inr line) (first :: rest) lines ∧
    Forall (covers widths 0) (first :: rest) ∧
    match default [] headers with
    | [] => header_lines = []
    | _ :: _ =>
        ∃ line,
          format_line widths (default [] headers) = inr line ∧
          covers widths 0 (default [] headers) ∧
          header_lines = [line; repeat_string (String.length line) "-"]
    end.
Proof.
  intros Hlen. apply Forall_cons in Hlen as [Hhs Hrows].
  unfold print_table.
  destruct (widen_is_inr (replicate (length first) 0) 0 (default [] headers))
    as [w1 Hw1]; [by rewrite length_replicate|].
  rewrite Hw1.
  destruct (widen_inr _ _ _ _ Hw1) as [Hgrow1 Hcov1].
  assert (length w1 = length first) as Hlen1.
  { destruct Hgrow1 as [-> _]. apply length_replicate. }
  destruct (widen_rows_is_inr w1 (first :: rest)) as [w2 Hw2];
    [by rewrite Hlen1|].
  rewrite Hw2.
  destruct (widen_rows_inr _ _ _ Hw2) as [Hgrow2 Hcov2].
  assert (length w2 = length first) as Hlen2.
  { destruct Hgrow2 as [-> _]. done. }
  pose proof (covers_grows _ _ _ _ Hgrow2 Hcov1) as Hcovh.
  destruct (default [] headers) as [|h hs] eqn:Hheaders.
  - destruct (print_rows_covered w2 (first :: rest) [] Hcov2)
      as (lines & -> & Hlines).
    by exists w2, [], lines.
  - destruct (format_line_covered w2 (h :: hs) Hcovh) as (line & Hline & _).
    rewrite Hline.
    destruct (print_rows_covered w2 (first :: rest)
                [line; repeat_string (String.length line) "-"] Hcov2)
      as (lines & -> & Hlines).
    exists w2, [line; repeat_string (String.length line) "-"], lines.
    repeat (split; [done|]). by exists line.
Qed.

End table_facts.

Lemma print_table_rectangular (rows : list (list pyval)) (n : nat)
    (headers : option (list pyval)) :
  rows ≠ [] →
  Forall (λ r, length r = n) rows →
  (∀ hs, headers = Some hs → hs = [] ∨ length hs = n) →
  ∃ lines width,
    print_table rows headers = (lines, None) ∧
    length lines =
      (length rows + match default [] headers with [] => 0 | _ :: _ => 2 end)%nat ∧
    Forall (λ line, String.length line = width) lines.
Proof.
  intros Hne Hrows Hheaders.
  destruct rows as [|first rest]; [done|]. clear Hne.
  pose proof Hrows as Hfirst. apply Forall_cons in Hfirst as [Hfirst _].
  assert (default [] headers = [] ∨ length (default [] headers) = n) as Hhs.
  { destruct headers as [hs|]; [by apply Hheaders|by left]. }
  destruct (print_table_lines first rest headers)
    as (widths & header_lines & lines & -> & Hlen & Hlines & Hcov & Hhead).
  { constructor.
    - destruct Hhs as [-> | ->]; simpl; lia.
    - eapply Forall_impl; [exact Hrows|]. simpl. intros r ->. lia. }
  exists (header_lines ++ lines),
         (sum_list widths + 2 * (length widths - 1))%nat.
  split; [done|].
  assert (Forall (λ line, String.length line
                          = (sum_list widths + 2 * (length widths - 1))%nat) lines)
    as Hwidth.
  { clear Hhead. revert Hrows Hcov.
    induction Hlines as [|r line rows lines Hline _ IH]; [done|].
    intros Hrows Hcov.
    apply Forall_cons in Hrows as [Hr Hrows].
    apply Forall_cons in Hcov as [Hc Hcov].
    constructor; [|by apply IH].
    destruct (format_line_covered widths r Hc) as (line' & Hline' & Hlength).
    rewrite Hline in Hline'. injection Hline' as <-.
    apply Hlength. congruence. }
  split.
  - rewrite length_app, <-(Forall2_length _ _ _ Hlines).
    destruct (default [] headers); [by subst|].
    destruct Hhead as (line & _ & _ & ->). simpl. lia.
  - apply Forall_app. split; [|done].
    destruct (default [] headers) as [|h hs] eqn:Hdef; [by subst|].
    destruct Hhead as (line & Hline & Hc & ->).
    destruct (format_line_covered widths (h :: hs) Hc) as (line' & Hline' & Hlength).
    rewrite Hline in Hline'. injection Hline' as <-.
    destruct Hhs as [?|Hn]; [done|].
    specialize (Hlength ltac:(congruence)).
    repeat constructor; [done|].
    rewrite repeat_string_length. simpl. lia.
Qed.






(** ** The console *)

Section console_facts.

Variable int : string → option Z.
Variable strip : string → string.

Lemma safe_int_loop_skips prompt dflt skipped lines out :
  Forall (rejects int strip dflt) skipped →
  safe_int_loop int strip prompt dflt (skipped ++ lines) out =
  safe_int_loop int strip prompt dflt lines
    (out ++ (skipped ≫= λ _,
               [Prompt prompt;
                Print "Please type a whole number (e.g. 3). Try again."])).
Proof.
  intros Hskipped. revert out.
  induction Hskipped as [|text skipped [Hint Hblank] _ IH]; intros out; csimpl.
  - by rewrite app_nil_r.
  - rewrite Hint.
    destruct (decide (strip text = "")) as [Hb|Hb]; simpl.
    + specialize (Hblank Hb). subst dflt.
      rewrite IH. by rewrite <-!(assoc (++)).
    + rewrite IH. by rewrite <-!(assoc (++)).
Qed.

End console_facts.

(** X12. [safe_int] asks again for every line it cannot read, printing its
    message each time, and returns the value of the first line it accepts;
    the lines after that one are left unread. *)
Theorem safe_int_returns_first_accepted
    (int : string → option Z) (strip : string → string)
    (prompt : string) (dflt : option Z)
    (skipped : list string) (text : string) (value : Z) (rest : list string)
    (out : list event) :
  Forall (rejects int strip dflt) skipped →
  accepts int strip dflt text value →
  safe_int int strip prompt dflt (Console (skipped ++ text :: rest) out) =
    (inr value,
     Console rest
       (out
        ++ (skipped ≫= λ _,
              [Prompt prompt;
               Print "Please type a whole number (e.g. 3). Try again."])
        ++ [Prompt prompt])).
Proof.
  intros Hskipped Haccepts. unfold safe_int. simpl.
  rewrite safe_int_loop_skips by done. simpl.
  rewrite (assoc (++) out).
  destruct Haccepts as [[Hblank ->]|[Hblank Hint]].
  - by rewrite decide_True.
  - rewrite Hint. destruct (decide (strip text = "")) as [Hb|Hb]; [|done].
    by rewrite (Hblank Hb).
Qed.

Lemma safe_int_returns_first_accepted_witness :
  safe_int (λ text, if decide (text = "3") then Some 3 else None) (λ text, text)
    "How many duplicants? " None
    (Console (["three"; ""] ++ "3" :: ["7"]) []) =
    (inr 3,
     Console ["7"]
       ([]
        ++ (["three"; ""] ≫= λ _,
              [Prompt "How many duplicants? ";
               Print "Please type a whole number (e.g. 3). Try again."])
        ++ [Prompt "How many duplicants? "])).
Proof.
  apply (safe_int_returns_first_accepted
           (λ text, if decide (text = "3") then Some 3 else None) (λ text, text)
           "How many duplicants? " None ["three"; ""] "3" 3 ["7"] []).
  - repeat constructor.
  - right. split; [done|]. reflexivity.
Defined.

(** X13. When the input ends before [safe_int] has read a line it accepts,
    the [EOFError] of [input] leaves the function: it is not one of the
    errors the loop asks again for. *)
Theorem safe_int_end_of_input
    (int : string → option Z) (strip : string → string)
    (prompt : string) (dflt : option Z) (lines : list string)
    (out : list event) :
  Forall (rejects int strip dflt) lines →
  safe_int int strip prompt dflt (Console lines out) =
    (inl EOFError,
     Console []
       (out
        ++ (lines ≫= λ _,
              [Prompt prompt;
               Print "Please type a whole number (e.g. 3). Try again."])
        ++ [Prompt prompt])).
Proof.
  intros Hlines. unfold safe_int. simpl.
  rewrite <-(app_nil_r lines) at 1.
  rewrite safe_int_loop_skips by done. simpl.
  by rewrite (assoc (++) out).
Qed.

Lemma safe_int_end_of_input_witness :
  safe_int (λ text, if decide (text = "3") then Some 3 else None) (λ text, text)
    "How many duplicants? " None (Console ["three"] []) =
    (inl EOFError,
     Console []
       ([]
        ++ (["three"] ≫= λ _,
              [Prompt "How many duplicants? ";
               Print "Please type a whole number (e.g. 3). Try again."])
        ++ [Prompt "How many duplicants? "])).
Proof.
  apply (safe_int_end_of_input
           (λ text, if decide (text = "3") then Some 3 else None) (λ text, text)
           "How many duplicants? " None ["three"] []).
  repeat constructor.
Defined.

(** ** Creating a project at the console *)

Lemma cprog_bind_inr {A B} (m : cprog A) (k : A → cprog B) c b c' :
  (m ≫= k) c = (inr b, c') →
  ∃ a c1, m c = (inr a, c1) ∧ k a c1 = (inr b, c').
Proof.
  unfold mbind, cprog_bind.
  destruct (m c) as [[e|a] c1]; [done|]. intros Hk. by exists a, c1.
Qed.

Lemma reads_at_least_bind {A B} (m : cprog A) (k : A → cprog B) n1 n2 :
  reads_at_least m n1 →
  (∀ a, reads_at_least (k a) n2) →
  reads_at_least (m ≫= k) (n1 + n2).
Proof.
  intros Hm Hk c. unfold mbind, cprog_bind.
  specialize (Hm c). destruct (m c) as [[e|a] c1]; [done|].
  specialize (Hk a c1). destruct (k a c1) as [[e|b] c2]; [done|]. lia.
Qed.

Lemma reads_at_least_ret {A} (a : A) : reads_at_least (mret a) 0.
Proof. intros c. simpl. lia. Qed.

Lemma reads_at_least_print line : reads_at_least (print line) 0.
Proof. intros c. simpl. lia. Qed.

Lemma reads_at_least_input prompt : reads_at_least (input prompt) 1.
Proof.
  intros c. unfold input.
  destruct (stdin c) as [|text rest]; simpl; [done|lia].
Qed.

Lemma reads_at_least_print_foods items : reads_at_least (print_foods items) 0.
Proof.
  induction items as [|[k v] rest IH]; simpl.
  - apply reads_at_least_ret.
  - apply (reads_at_least_bind _ _ 0 0); [apply reads_at_least_print|done].
Qed.

Section interactive_facts.

Variable int : string → option Z.
Variable strip : string → string.

Lemma reads_at_least_safe_int prompt dflt :
  reads_at_least (safe_int int strip prompt dflt) 1.
Proof.
  intros [lines out]. unfold safe_int. simpl. revert out.
  induction lines as [|text rest IH]; intros out; simpl; [done|].
  destruct (if decide (strip text = "") then dflt else None); [simpl; lia|].
  destruct (int text); [simpl; lia|].
  specialize (IH ((out ++ [Prompt prompt])
                  ++ [Print "Please type a whole number (e.g. 3). Try again."])).
  destruct (safe_int_loop _ _ _ _ _ _) as [[e|v] c']; [done|lia].
Qed.

Lemma reads_at_least_ask_buildings items buildings :
  Forall (λ entry, is_Some (od_get entry.2 "name")) items →
  reads_at_least (ask_buildings int strip items buildings) (length items).
Proof.
  intros Hnames. revert buildings.
  induction Hnames as [|[bkey info] rest [name Hname] _ IH]; intros buildings.
  - apply reads_at_least_ret.
  - simpl in *. rewrite Hname.
    apply (reads_at_least_bind _ _ 1 (length rest));
      [apply reads_at_least_input|].
    intros cnt. apply IH.
Qed.

(** The loop stores non-zero counts only, under keys of the catalog, each
    key once. *)
Lemma ask_buildings_stores items buildings c bs c' :
  ask_buildings int strip items buildings c = (inr bs, c') →
  Forall (λ item, item.2 ≠ 0) buildings →
  NoDup buildings.*1 →
  Forall (λ item, item.2 ≠ 0) bs ∧
  NoDup bs.*1 ∧
  ∀ k, k ∈ bs.*1 → k ∈ buildings.*1 ∨ k ∈ items.*1.
Proof.
  revert buildings c.
  induction items as [|[bkey info] rest IH]; intros buildings c; simpl.
  - intros [= <- <-] Hnonzero Hnodup. repeat split; auto.
  - destruct (od_get info "name") as [name|]; [|done].
    intros Hrun Hnonzero Hnodup.
    apply cprog_bind_inr in Hrun as (cnt & c1 & _ & Hrun).
    apply IH in Hrun as (Hnz & Hnd & Hkeys).
    + repeat split; [done|done|].
      intros k Hk. destruct (Hkeys k Hk) as [Hin|Hin].
      * case_decide; [by left|].
        rewrite od_set_keys in Hin. case_decide; [by left|].
        apply elem_of_app in Hin as [?|Hin]; [by left|].
        apply list_elem_of_singleton in Hin as ->.
        right. apply elem_of_cons. by left.
      * right. apply elem_of_cons. by right.
    + case_decide as Hzero; [done|].
      apply Forall_forall. intros [k v] Hin.
      apply od_set_elem_of in Hin as [Hin|[-> ->]]; [|done].
      rewrite Forall_forall in Hnonzero. by apply (Hnonzero (k, v)).
    + case_decide; [done|]. by apply od_set_NoDup.
Qed.

Variable FOODS : list (string * food_info).
Variable BUILDINGS : list (string * list (string * pyval)).

Lemma interactive_create_project_stores c p c' :
  interactive_create_project int strip FOODS BUILDINGS c = (inr p, c') →
  (is_Some (od_get FOODS (p_food_choice p)) ∨ p_food_choice p = "basic_meal") ∧
  Forall (λ item, item.1 ∈ BUILDINGS.*1 ∧ item.2 ≠ 0) (p_buildings p) ∧
  NoDup (p_buildings p).*1.
Proof.
  unfold interactive_create_project. intros Hrun.
  apply cprog_bind_inr in Hrun as (? & c1 & _ & Hrun).
  apply cprog_bind_inr in Hrun as (dup & c2 & _ & Hrun).
  apply cprog_bind_inr in Hrun as (days & c3 & _ & Hrun).
  apply cprog_bind_inr in Hrun as (? & c4 & _ & Hrun).
  apply cprog_bind_inr in Hrun as (? & c5 & _ & Hrun).
  apply cprog_bind_inr in Hrun as (text & c6 & _ & Hrun).
  apply cprog_bind_inr in Hrun as (food_choice & c7 & Hfood & Hrun).
  apply cprog_bind_inr in Hrun as (? & c8 & _ & Hrun).
  apply cprog_bind_inr in Hrun as (bs & c9 & Hask & Hrun).
  injection Hrun as <- <-. simpl.
  split.
  - destruct (decide (od_get FOODS (strip text) = None)) as [Hnone|Hsome].
    + apply cprog_bind_inr in Hfood as (? & ? & _ & [= <- _]). by right.
    + injection Hfood as <- _. left.
      by destruct (od_get FOODS (strip text)); [eauto|].
  - apply ask_buildings_stores in Hask as (Hnz & Hnd & Hkeys);
      [|done|constructor].
    split; [|done].
    apply Forall_forall. intros [k v] Hin. simpl. split.
    + destruct (Hkeys k) as [Hk|Hk]; [|by apply elem_of_nil in Hk|done].
      apply list_elem_of_fmap. by exists (k, v).
    + rewrite Forall_forall in Hnz. by apply (Hnz (k, v)).
Qed.

Lemma reads_at_least_interactive_create_project :
  Forall (λ entry, is_Some (od_get entry.2 "name")) BUILDINGS →
  reads_at_least (interactive_create_project int strip FOODS BUILDINGS)
    (3 + length BUILDINGS).
Proof.
  intros Hnames. unfold interactive_create_project.
  apply (reads_at_least_bind _ _ 0 (3 + length BUILDINGS));
    [apply reads_at_least_print|intros _].
  apply (reads_at_least_bind _ _ 1 (2 + length BUILDINGS));
    [apply reads_at_least_safe_int|intros dup].
  apply (reads_at_least_bind _ _ 1 (1 + length BUILDINGS));
    [apply reads_at_least_safe_int|intros days].
  apply (reads_at_least_bind _ _ 0 (1 + length BUILDINGS));
    [apply reads_at_least_print|intros _].
  apply (reads_at_least_bind _ _ 0 (1 + length BUILDINGS));
    [apply reads_at_least_print_foods|intros _].
  apply (reads_at_least_bind _ _ 1 (length BUILDINGS));
    [apply reads_at_least_input|intros text].
  apply (reads_at_least_bind _ _ 0 (length BUILDINGS)).
  { case_decide; [|apply reads_at_least_ret].
    apply (reads_at_least_bind _ _ 0 0);
      [apply reads_at_least_print|intros _; apply reads_at_least_ret]. }
  intros food_choice.
  apply (reads_at_least_bind _ _ 0 (length BUILDINGS));
    [apply reads_at_least_print|intros _].
  rewrite <-(Nat.add_0_r (length BUILDINGS)).
  apply (reads_at_least_bind _ _ (length BUILDINGS) 0);
    [by apply reads_at_least_ask_buildings|intros bs].
  apply reads_at_least_ret.
Qed.

End interactive_facts.

(** X14. A project created at the console is well formed, whatever was
    typed: its food is a key of [FOODS] or the default ["basic_meal"], and
    its buildings are keys of [BUILDINGS], each once, with a count that is
    not zero. *)
Theorem created_project_is_well_formed
    (int : string → option Z) (strip : string → string)
    (FOODS : list (string * food_info))
    (BUILDINGS : list (string * list (string * pyval)))
    (c : console) (p : project) (c' : console) :
  interactive_create_project int strip FOODS BUILDINGS c = (inr p, c') →
  (is_Some (od_get FOODS (p_food_choice p)) ∨ p_food_choice p = "basic_meal") ∧
  Forall (λ item, item.1 ∈ BUILDINGS.*1 ∧ item.2 ≠ 0) (p_buildings p) ∧
  NoDup (p_buildings p).*1.
Proof. apply interactive_create_project_stores. Qed.

Lemma created_project_is_well_formed_witness :
  ∃ p c',
    interactive_create_project
      (λ text, if decide (text = "3") then Some 3 else None) (λ text, text)
      FOODS_items BUILDINGS_items
      (Console ["3"; "3"; "pizza"; "3"; ""; "many"] []) = (inr p, c') ∧
    (is_Some (od_get FOODS_items (p_food_choice p))
     ∨ p_food_choice p = "basic_meal") ∧
    Forall (λ item, item.1 ∈ BUILDINGS_items.*1 ∧ item.2 ≠ 0) (p_buildings p) ∧
    NoDup (p_buildings p).*1.
Proof.
  eexists _, _. split; [vm_compute; reflexivity|].
  eapply (created_project_is_well_formed
            (λ text, if decide (text = "3") then Some 3 else None) (λ text, text)
            FOODS_items BUILDINGS_items
            (Console ["3"; "3"; "pizza"; "3"; ""; "many"] [])).
  vm_compute. reflexivity.
Defined.

(** X15. When every building of the catalog has a name, creating a project
    reads at least three lines and one more per building, and the only
    exception it can raise is the [EOFError] of an input that ends too
    early, which it does not catch. *)
Theorem created_project_needs_input
    (int : string → option Z) (strip : string → string)
    (FOODS : list (string * food_info))
    (BUILDINGS : list (string * list (string * pyval))) :
  Forall (λ entry, is_Some (od_get entry.2 "name")) BUILDINGS →
  reads_at_least (interactive_create_project int strip FOODS BUILDINGS)
    (3 + length BUILDINGS) ∧
  ∀ c,
    (length (stdin c) < 3 + length BUILDINGS)%nat →
    ∃ c', interactive_create_project int strip FOODS BUILDINGS c
          = (inl EOFError, c').
Proof.
  intros Hnames.
  pose proof (reads_at_least_interactive_create_project int strip FOODS BUILDINGS
                Hnames) as Hreads.
  split; [exact Hreads|].
  intros c Hshort. specialize (Hreads c).
  destruct (interactive_create_project int strip FOODS BUILDINGS c)
    as [[e|p] c'].
  - destruct Hreads as [-> _]. by exists c'.
  - lia.
Qed.

Lemma created_project_needs_input_witness :
  reads_at_least
    (interactive_create_project
       (λ text, if decide (text = "3") then Some 3 else None) (λ text, text)
       FOODS_items BUILDINGS_items)
    (3 + length BUILDINGS_items) ∧
  ∀ c,
    (length (stdin c) < 3 + length BUILDINGS_items)%nat →
    ∃ c', interactive_create_project
            (λ text, if decide (text = "3") then Some 3 else None) (λ text, text)
            FOODS_items BUILDINGS_items c
          = (inl EOFError, c').
Proof.
  apply (created_project_needs_input
           (λ text, if decide (text = "3") then Some 3 else None) (λ text, text)
           FOODS_items BUILDINGS_items).
  repeat constructor; vm_compute; eauto.
Defined.

Lemma FOODS_items_lookup food_key : od_get FOODS_items food_key = FOODS !! food_key.
Proof. by rewrite od_get_list_to_map. Qed.

Lemma ordered_shipped_returns duplicants days food_key buildings :
  is_Some (FOODS !! food_key) →
  ∃ r,
    Ordered.compute_requirements FOODS BUILDINGS duplicants days food_key buildings
      = inr r.
Proof.
  intros [food_info Hfood]. unfold Ordered.compute_requirements. rewrite Hfood.
  rewrite decide_False
    by (pose proof (FOODS_calories_pos _ _ Hfood); simpl; lia).
  pose proof (ordered_material_totals BUILDINGS buildings []) as Hmap.
  destruct (material_totals_lookup BUILDINGS BUILDINGS_ok buildings ∅)
    as (materials & Hrun & _).
  destruct (Ordered.material_totals BUILDINGS buildings []) as [e|m];
    simpl in *; [congruence|eauto].
Qed.


